(** * IOTstack service templates and the mosquitto service builder

    A shallow embedding of the three catalog templates
    ([prometheus], [influxdb], [espruinohub]: [getConfigOptions], [getMeta])
    and of the mosquitto [ServiceBuilder] ([compile], [issues], [build]),
    followed by the properties of the build pipeline that the
    specification states about them. *)

From Stdlib Require Import ZArith NArith QArith Qcanon.
From stdpp Require Import base option list strings pretty gmap.

Open Scope string_scope.
Open Scope N_scope.

(** ** JavaScript values *)

Module JS.

(** A number: every finite double is a rational, and beside the finite
    ones there are negative zero, NaN and the two infinities. *)
Inductive number : Type :=
  | Finite (q : Qc)
  | NegZero
  | NaN
  | PosInfinity
  | NegInfinity.

(** The values the builder handles: primitives, arrays and plain records.
    A record is the list of its own properties, each named once, in
    property order. *)
#[local] Unset Elimination Schemes.
Inductive value : Type :=
  | VUndef
  | VNull
  | VBool (b : bool)
  | VNum (n : number)
  | VBigInt (z : Z)
  | VStr (s : string)
  | VArr (xs : list value)
  | VObj (own : list (string * value)).
#[local] Set Elimination Schemes.

Definition props : Type := list (string * value).

(** [if (v)]: the falsy values are undefined, null, false, the zeros
    [0], [-0] and [0n], NaN and the empty string; every array and record
    is truthy. *)
Definition truthy (v : value) : bool :=
  match v with
  | VUndef | VNull => false
  | VBool b => b
  | VNum (Finite q) => negb (bool_decide (q = 0%Qc))
  | VNum NegZero | VNum NaN => false
  | VNum PosInfinity | VNum NegInfinity => true
  | VBigInt z => negb (z =? 0)%Z
  | VStr s => negb (String.eqb s "")
  | VArr _ | VObj _ => true
  end.

(** Own property [k] of a record: the first binding of [k]. *)
Fixpoint field {A : Type} (k : string) (own : list (string * A)) : option A :=
  match own with
  | [] => None
  | (k', v) :: rest => if String.eqb k k' then Some v else field k rest
  end.

(** Field names of an arbitrary value; only records have named fields. *)
Definition fieldNames (v : value) : list string :=
  match v with
  | VObj own => own.*1
  | _ => []
  end.

(** [v.k] read as an own property; [None] where there is none. *)
Definition getField (k : string) (v : value) : option value :=
  match v with
  | VObj own => field k own
  | _ => None
  end.

Definition hasField (k : string) (v : value) : bool :=
  bool_decide (is_Some (getField k v)).

(** *** JSON documents

    What a JSON text written by [JSON.stringify] says: null, booleans,
    finite numbers, strings, arrays and objects of these.  A text is given
    by the document it says; the members of an object are listed as
    [JSON.parse] creates them, each name once. *)
#[local] Unset Elimination Schemes.
Inductive json : Type :=
  | JNull
  | JBool (b : bool)
  | JNum (q : Qc)
  | JStr (s : string)
  | JArr (elements : list json)
  | JObj (members : list (string * json)).
#[local] Set Elimination Schemes.

(** The value [JSON.parse] builds for a document. *)
Fixpoint ofJson (doc : json) : value :=
  match doc with
  | JNull => VNull
  | JBool b => VBool b
  | JNum q => VNum (Finite q)
  | JStr s => VStr s
  | JArr elements => VArr (map ofJson elements)
  | JObj members => VObj (map (λ kj, (kj.1, ofJson kj.2)) members)
  end.

(** *** Completions

    What a [throw] can carry: any value, or any other object (an Error
    instance with its prototype chain, a structure with cycles, a function,
    a symbol), of which the model keeps only an identity.  What the
    built-ins make of a thrown thing is the engine's business. *)
Inductive thrown : Type :=
  | Plain (v : value)
  | Exotic (id : N).

(** A JavaScript computation either returns or throws. *)
Inductive completion (A : Type) : Type :=
  | Normal (a : A)
  | Throw (err : thrown).
Arguments Normal {A} a.
Arguments Throw {A} err.

(** Outcome of the promise a phase returns. *)
Inductive settlement : Type :=
  | Resolved (v : value)
  | Rejected (reason : thrown).

End JS.

Import JS.

(** ** The service templates of the catalog *)

Module Catalog.

(** A published port, ["host:container"] in the sources. *)
Record Port : Type := { host : N; container : N }.

#[global] Instance Port_eq_dec : EqDecision Port.
Proof. solve_decision. Defined.

(** What [getConfigOptions] returns.  A dimension a template leaves out
    ([labeledPorts], [modifyableEnvironment], [imageTags]) is the empty
    list. *)
Record OptionDescriptor : Type := {
  serviceName : string;
  labeledPorts : list (Port * string);
  modifyableEnvironment : list (string * string);
  volumes : bool;
  imageTags : list string;
  networks : bool;
  logging : bool
}.

Inductive service : Type := prometheus | influxDb | espruinohub.

Definition getConfigOptions (s : service) : OptionDescriptor :=
  match s with
  | prometheus =>
      {| serviceName := "prometheus";
         labeledPorts := [({| host := 9080; container := 8080 |}, "http")];
         modifyableEnvironment := [];
         volumes := false;
         imageTags := [];
         networks := false;
         logging := true |}
  | influxDb =>
      {| serviceName := "influxdb";
         labeledPorts := [({| host := 8086; container := 8086 |}, "http")];
         modifyableEnvironment := [("INFLUXDB_UDP_BIND_ADDRESS", "0.0.0.0:8086")];
         volumes := true;
         imageTags := ["1.8.4"; "latest"];
         networks := true;
         logging := true |}
  | espruinohub =>
      {| serviceName := "espruinohub";
         labeledPorts := [];
         modifyableEnvironment := [];
         volumes := false;
         imageTags := [];
         networks := false;
         logging := true |}
  end.

(** [getMeta], as the object literal each template returns. *)
Definition getMeta (s : service) : value :=
  match s with
  | prometheus =>
      VObj [("serviceName", VStr "prometheus");
            ("displayName", VStr "Prometheus (untested)");
            ("serviceTypeTags", VArr [VStr "wui"; VStr "database manager"])]
  | influxDb =>
      VObj [("serviceName", VStr "influxdb");
            ("displayName", VStr "InfluxDB");
            ("serviceTypeTags", VArr [VStr "database"; VStr "timeseries"; VStr "sql"]);
            ("iconUri", VStr "/logos/influxdb.svg")]
  | espruinohub =>
      VObj [("serviceName", VStr "espruinohub");
            ("displayName", VStr "EspruinoHub (untested)");
            ("serviceTypeTags", VArr [VStr "mqtt"; VStr "ble"; VStr "rpi only"])]
  end.

(** The [const serviceName] each template closes over. *)
Definition name (s : service) : string :=
  match s with
  | prometheus => "prometheus"
  | influxDb => "influxdb"
  | espruinohub => "espruinohub"
  end.

(** [getHelp], the same literal in the three templates. *)
Definition getHelp (s : service) : value :=
  VObj [("serviceName", VStr (name s));
        ("website", VStr "");
        ("rawMarkdownRemote", VStr "");
        ("rawMarkdownLocal", VStr "");
        ("onlineRendered", VStr "")].

(** [getCommands]: no helper command in any of the three. *)
Definition getCommands (s : service) : value :=
  VObj [("commands", VObj [])].

End Catalog.

(** ** A small state-and-exception monad for the phase bodies *)

Module Effects.

(** A computation over a mutable [S]: what it returns or throws, and the
    state it leaves behind (mutations made before a throw stay). *)
Definition M (S A : Type) : Type := S → completion A * S.

#[global] Instance M_ret {S} : MRet (M S) := λ A a s, (Normal a, s).
#[global] Instance M_bind {S} : MBind (M S) := λ A B f m s,
  match m s with
  | (Normal a, s') => f a s'
  | (Throw err, s') => (Throw err, s')
  end.

Definition throw {S A} (err : thrown) : M S A := λ s, (Throw err, s).

#[global] Instance completion_ret : MRet completion := λ A a, Normal a.
#[global] Instance completion_bind : MBind completion := λ A B f m,
  match m with
  | Normal a => f a
  | Throw err => Throw err
  end.

End Effects.

Import Effects.

(** ** The compile-merge helpers *)

Module CommonCompileLogic.
Import Catalog.

(** [src/utils/commonCompileLogic] ([setModifiedPorts], [setLoggingState],
    [setNetworkMode], [setNetworks]) is required by the builder but is not
    among the sources.  This module models it from the specification: the
    data model from section 3 and the four merges from section 4.2, where
    each merge is a pure function of the current block, the requested option
    and the descriptor, scoped to the block of one service, and a request
    the descriptor does not support is dropped silently.  By section 3 a
    compile only overwrites the fields present in the options. *)

(** Modelled from the spec: the network mode of a block, missing with
    [commonCompileLogic]; either "none" or a named network list
    (section 4.2). *)
Inductive NetworkMode : Type :=
  | ModeNone
  | ModeNamed (names : list string).

#[global] Instance NetworkMode_eq_dec : EqDecision NetworkMode.
Proof. solve_decision. Defined.

(** Modelled from the spec: the per-service config block of the working
    document, missing with [commonCompileLogic]; ports, environment,
    volumes, network mode, logging flag and networks (section 3).  [ports]
    holds one mapping per container port (container port ↦ host port). *)
Record Block : Type := {
  ports : gmap N N;
  environment : list (string * string);
  blockVolumes : list string;
  network_mode : option NetworkMode;
  loggingEnabled : bool;
  blockNetworks : gset string
}.

#[global] Instance Block_eq_dec : EqDecision Block.
Proof. solve_decision. Defined.

Abbreviation WorkingDocument := (gmap string Block).

(** Modelled from the spec: a requested port remap, missing with
    [commonCompileLogic]; the declared port it concerns and the host port
    to publish its container port on. *)
Record PortRemap : Type := { declared : Port; newHost : N }.

(** Modelled from the spec: the build options of one service, missing
    with [commonCompileLogic]; the user's choices (section 3), [None] being
    a choice left out. *)
Record ServiceOptions : Type := {
  portRemaps : list PortRemap;
  loggingChoice : option bool;
  networkModeChoice : option NetworkMode;
  networksChoice : list string
}.

Abbreviation BuildOptions := (gmap string ServiceOptions).

(** Modelled from the spec: one step of the port merge, missing with
    [commonCompileLogic]; a remap whose port the descriptor's label set
    declares is written, replacing any previous mapping for that container
    port, and any other remap is dropped (section 4.2). *)
Definition acceptRemap (d : OptionDescriptor) (published : gmap N N)
    (r : PortRemap) : gmap N N :=
  if bool_decide (declared r ∈ (labeledPorts d).*1) then
    <[container (declared r) := newHost r]> published
  else published.

(** Modelled from the spec: the port merge of [setModifiedPorts], missing
    with [commonCompileLogic]; every requested remap in turn. *)
Definition portMerge (d : OptionDescriptor) (o : ServiceOptions) (b : Block) : Block :=
  {| ports := foldl (acceptRemap d) (ports b) (portRemaps o);
     environment := environment b;
     blockVolumes := blockVolumes b;
     network_mode := network_mode b;
     loggingEnabled := loggingEnabled b;
     blockNetworks := blockNetworks b |}.

(** Modelled from the spec: the logging merge of [setLoggingState],
    missing with [commonCompileLogic]; the requested boolean overwrites the
    flag, only if the descriptor marks logging as supported. *)
Definition loggingMerge (d : OptionDescriptor) (o : ServiceOptions) (b : Block) : Block :=
  match loggingChoice o with
  | Some on =>
      if logging d then
        {| ports := ports b;
           environment := environment b;
           blockVolumes := blockVolumes b;
           network_mode := network_mode b;
           loggingEnabled := on;
           blockNetworks := blockNetworks b |}
      else b
  | None => b
  end.

(** Modelled from the spec: the network-mode merge of [setNetworkMode],
    missing with [commonCompileLogic]; sets either "none" or a named
    network list, only if the descriptor marks [networks: true]. *)
Definition networkModeMerge (d : OptionDescriptor) (o : ServiceOptions) (b : Block) : Block :=
  match networkModeChoice o with
  | Some mode =>
      if networks d then
        {| ports := ports b;
           environment := environment b;
           blockVolumes := blockVolumes b;
           network_mode := Some mode;
           loggingEnabled := loggingEnabled b;
           blockNetworks := blockNetworks b |}
      else b
  | None => b
  end.

(** Modelled from the spec: the networks merge of [setNetworks], missing
    with [commonCompileLogic]; attaches the service to the requested
    user-defined networks, never for a descriptor with [networks: false]. *)
Definition networksMerge (d : OptionDescriptor) (o : ServiceOptions) (b : Block) : Block :=
  if networks d then
    {| ports := ports b;
       environment := environment b;
       blockVolumes := blockVolumes b;
       network_mode := network_mode b;
       loggingEnabled := loggingEnabled b;
       blockNetworks := blockNetworks b ∪ list_to_set (networksChoice o) |}
  else b.

(** Modelled from the spec: how a helper of [commonCompileLogic] reaches
    the block it merges into; the block of [name] in the document, and a
    service without a block, without options or without a descriptor is
    left as it is. *)
Definition applyMerge (registry : string → option OptionDescriptor)
    (merge : OptionDescriptor → ServiceOptions → Block → Block)
    (buildTemplate : WorkingDocument) (buildOptions : BuildOptions)
    (name : string) : WorkingDocument :=
  match registry name, buildOptions !! name with
  | Some d, Some o => alter (merge d o) name buildTemplate
  | _, _ => buildTemplate
  end.

(** Modelled from the spec: a helper of [commonCompileLogic] as the
    builder calls it; it updates the document in place and hands back
    whether it modified anything (compile logs that flag as
    [modifiedPorts], [modifiedLogging], ...). *)
Definition setter (registry : string → option OptionDescriptor)
    (merge : OptionDescriptor → ServiceOptions → Block → Block)
    (buildOptions : BuildOptions) (name : string) : M WorkingDocument value :=
  λ buildTemplate,
    let updated := applyMerge registry merge buildTemplate buildOptions name in
    (Normal (VBool (bool_decide (updated ≠ buildTemplate))), updated).

(** Modelled from the spec: [setModifiedPorts] of [commonCompileLogic]. *)
Definition setModifiedPorts registry := setter registry portMerge.

(** Modelled from the spec: [setLoggingState] of [commonCompileLogic]. *)
Definition setLoggingState registry := setter registry loggingMerge.

(** Modelled from the spec: [setNetworkMode] of [commonCompileLogic]. *)
Definition setNetworkMode registry := setter registry networkModeMerge.

(** Modelled from the spec: [setNetworks] of [commonCompileLogic]. *)
Definition setNetworks registry := setter registry networksMerge.

End CommonCompileLogic.

(** ** The mosquitto service builder *)

Module ServiceBuilder.

(** What [require('../../../src/utils/commonCompileLogic')] provides: each
    helper receives [{ buildTemplate, buildOptions, serviceName }], may
    update the document in place, and returns a value or throws. *)
Record commonCompileLogic (D O : Type) : Type := {
  setModifiedPorts : O → string → M D value;
  setLoggingState : O → string → M D value;
  setNetworkMode : O → string → M D value;
  setNetworks : O → string → M D value
}.
Arguments setModifiedPorts {D O} _ _ _ _.
Arguments setLoggingState {D O} _ _ _ _.
Arguments setNetworkMode {D O} _ _ _ _.
Arguments setNetworks {D O} _ _ _ _.

(** Modelled from the spec: [src/utils/commonBuildChecks] is required by
    the builder but is not among the sources.  By section 4.3 each checker
    is a pure function of the document, the options and the service name; it
    does not mutate the document.  The port and dependency checkers return a
    sequence of Issues, the network checker a single finding or a falsy
    value.  Any of them may throw. *)
Record commonBuildChecks (D O : Type) : Type := {
  checkPortConflicts : D → O → string → completion (list value);
  checkNetworkConflicts : D → O → string → completion value;
  checkDependencyServices : D → O → string → completion (list value)
}.
Arguments checkPortConflicts {D O} _ _ _ _.
Arguments checkNetworkConflicts {D O} _ _ _ _.
Arguments checkDependencyServices {D O} _ _ _ _.

(** What the Node runtime provides: the directory of the module,
    [path.join] on strings, the Error objects it raises, and the built-ins
    of the catch blocks.  [Object.getOwnPropertyNames] gives the own
    property names of what was thrown, or throws.  [JSON.stringify], called
    with a list of names as replacer, writes a JSON text, given here by the
    document it says, or returns [undefined] ([None]), or throws.  Both are
    taken to leave the working document and the shared arrays alone: what
    is thrown has no getter or [toJSON] method that writes to them. *)
Record runtime : Type := {
  __dirname : string;
  path_join : list string → string;
  TypeError : string → thrown;
  SyntaxError : string → thrown;
  Object_getOwnPropertyNames : thrown → completion (list string);
  JSON_stringify : thrown → list string → completion (option json)
}.

(** Arrays shared with the caller live in a store and are passed by
    location, so that two arguments may name the same array. *)
Abbreviation loc := nat.
Abbreviation store := (gmap nat value).

(** What a [build] call can reach: the working document and the store. *)
Record world (D : Type) : Type := {
  outputTemplateJson : D;
  heap : store
}.
Arguments outputTemplateJson {D} _.
Arguments heap {D} _.
Arguments Build_world {D} _ _.

Definition nl : string := String (Ascii.ascii_of_N 10) EmptyString.
Definition dq : string := String (Ascii.ascii_of_N 34) EmptyString.

Section Builder.
Context {D O : Type}.
Variable settings : value.
Variable logic : commonCompileLogic D O.
Variable checks : commonBuildChecks D O.
Variable node : runtime.

Definition serviceName : string := "mosquitto".

Definition checkServiceFilesCopied : string :=
  nl ++ "if [[ ! -f ./services/mosquitto/mosquitto.conf ]]; then" ++ nl
     ++ "  echo " ++ dq ++ "Mosquitto config file is missing!" ++ dq ++ nl
     ++ "  sleep 2" ++ nl
     ++ "fi" ++ nl.

Definition createVolumesDirectory : string :=
  nl ++ "mkdir -p ./volumes/mosquitto/data" ++ nl
     ++ "mkdir -p ./volumes/mosquitto/pwfile" ++ nl
     ++ "mkdir -p ./volumes/mosquitto/log" ++ nl.

Definition checkVolumesDirectory : string :=
  nl ++ "HAS_ERROR=" ++ dq ++ "false" ++ dq ++ nl
     ++ "if [[ ! -d ./volumes/mosquitto/data ]]; then" ++ nl
     ++ "  echo " ++ dq ++ "Mosquitto data directory is missing!" ++ dq ++ nl
     ++ "  HAS_ERROR=" ++ dq ++ "true" ++ dq ++ nl
     ++ "fi" ++ nl
     ++ nl
     ++ "if [[ ! -d ./volumes/mosquitto/pwfile ]]; then" ++ nl
     ++ "  echo " ++ dq ++ "Mosquitto pwfile directory is missing!" ++ dq ++ nl
     ++ "  HAS_ERROR=" ++ dq ++ "true" ++ dq ++ nl
     ++ "fi" ++ nl
     ++ nl
     ++ "if [[ ! -d ./volumes/mosquitto/log ]]; then" ++ nl
     ++ "  echo " ++ dq ++ "Mosquitto log directory is missing!" ++ dq ++ nl
     ++ "  HAS_ERROR=" ++ dq ++ "true" ++ dq ++ nl
     ++ "fi" ++ nl
     ++ nl
     ++ "if [[ " ++ dq ++ "$HAS_ERROR" ++ dq ++ " == " ++ dq ++ "true ]]; then" ++ nl
     ++ "  echo " ++ dq ++ "Errors were detected when setting up Mosquitto" ++ dq ++ nl
     ++ "  sleep 1" ++ nl
     ++ "fi" ++ nl.

Definition setupVolumePermissions (setUser1883 : value) : string :=
  if truthy setUser1883 then
    nl ++ "echo " ++ dq ++ "Updating mosquitto permissions:" ++ dq ++ nl
       ++ "echo " ++ dq ++ "  chown -R 1883:1883 ./volumes/mosquitto/" ++ dq ++ nl
       ++ "sudo chown -R 1883:1883 ./volumes/mosquitto/" ++ nl
       ++ "    "
  else
    nl ++ "echo " ++ dq ++ "Mosquitto volume permissions not changed." ++ dq ++ nl
       ++ "    ".

(** [JSON.parse(text)] reads the document back; [undefined] is no JSON
    text. *)
Definition JSON_parse (text : option json) : completion json :=
  match text with
  | Some doc => Normal doc
  | None => Throw (SyntaxError node "undefined is not valid JSON")
  end.

(** The expression of every catch block:
    [JSON.parse(JSON.stringify(err, Object.getOwnPropertyNames(err)))]. *)
Definition errorSnapshot (err : thrown) : completion value :=
  names ← Object_getOwnPropertyNames node err;
  text ← JSON_stringify node err names;
  doc ← JSON_parse text;
  mret (ofJson doc).

(** The [catch (err)] block shared by the three phases: the promise is
    rejected with [{ component, message, error }].  When the snapshot
    expression itself throws, that exception leaves the executor and the
    promise is rejected with it instead. *)
Definition unhandled (phase : string) (snapshot : value) : value :=
  VObj [("component", VStr ("ServiceBuilder::" ++ phase ++ "() - '" ++ serviceName ++ "'"));
        ("message", VStr "Unhandled error occured");
        ("error", snapshot)].

Definition rejectUnhandled (phase : string) (err : thrown) : settlement :=
  match errorSnapshot err with
  | Normal snapshot => Rejected (Plain (unhandled phase snapshot))
  | Throw raised => Rejected raised
  end.

(** [new Promise((resolve, reject) => { try { ... return resolve(v) }
    catch (err) { ... return reject({...}) } })]. *)
Definition conclude (phase : string) (c : completion value) : settlement :=
  match c with
  | Normal v => Resolved v
  | Throw err => rejectUnhandled phase err
  end.

Definition settle {S : Type} (phase : string) (body : M S value) (s : S)
    : settlement * S :=
  let (c, s') := body s in (conclude phase c, s').

(** *** compile *)

Definition compileBody (buildOptions : O) : M D value :=
  modifiedPorts ← setModifiedPorts logic buildOptions serviceName;
  modifiedLogging ← setLoggingState logic buildOptions serviceName;
  modifiedNetworkMode ← setNetworkMode logic buildOptions serviceName;
  modifiedNetworks ← setNetworks logic buildOptions serviceName;
  let compileResults :=
    VObj [("modifiedPorts", modifiedPorts);
          ("modifiedLogging", modifiedLogging);
          ("modifiedNetworkMode", modifiedNetworkMode);
          ("modifiedNetworks", modifiedNetworks)] in
  mret (VObj [("type", VStr "service")]).

Definition compile (buildOptions : O) : D → settlement * D :=
  settle "compile" (compileBody buildOptions).

(** *** issues *)

Definition issuesBody (outputTemplateJson : D) (buildOptions : O)
    : completion value :=
  let issues : list value := [] in
  portConflicts ← checkPortConflicts checks outputTemplateJson buildOptions serviceName;
  let issues := (issues ++ portConflicts)%list in
  serviceDependencies ← checkDependencyServices checks outputTemplateJson buildOptions serviceName;
  let issues := (issues ++ serviceDependencies)%list in
  networkConflicts ← checkNetworkConflicts checks outputTemplateJson buildOptions serviceName;
  let issues := if truthy networkConflicts then (issues ++ [networkConflicts])%list else issues in
  mret (VArr issues).

Definition issues (outputTemplateJson : D) (buildOptions : O) (tmpPath : value)
    : settlement :=
  conclude "issues" (issuesBody outputTemplateJson buildOptions).

(** *** build *)

(** [v.k] for the names read here ([paths], [serviceFiles]): reading a
    property of [undefined] or [null] throws, a record gives its own
    property, anything else has no such property. *)
Definition getProperty {S} (v : value) (k : string) : M S value :=
  match v with
  | VUndef | VNull => throw (TypeError node ("Cannot read properties of undefined or null (reading '" ++ k ++ "')"))
  | VObj own => mret (default VUndef (field k own))
  | _ => mret VUndef
  end.

(** [path.join(...)] validates that every segment is a string. *)
Definition pathJoin {S} (segments : list value) : M S string :=
  match mapM (λ v, match v with VStr s => Some s | _ => None end) segments with
  | Some strings => mret (path_join node strings)
  | None => throw (TypeError node "The path argument must be of type string")
  end.

(** [target.push(v)] on the array stored at [target]; anything else there
    has no [push] method. *)
Definition push (target : loc) (v : value) : M (world D) unit :=
  λ w,
    match heap w !! target with
    | Some (VArr xs) =>
        (Normal tt, Build_world (outputTemplateJson w) (<[target := VArr (xs ++ [v])%list]> (heap w)))
    | _ => (Throw (TypeError node "push is not a function"), w)
    end.

Definition zipEntry (fullPath : string) : value :=
  VObj [("fullPath", VStr fullPath);
        ("zipName", VStr "/services/mosquitto/mosquitto.conf")].

Definition fragment (comment code : string) : value :=
  VObj [("serviceName", VStr serviceName);
        ("comment", VStr comment);
        ("multilineComment", VNull);
        ("code", VStr code)].

Definition buildBody (buildOptions : O) (tmpPath : value)
    (zipList prebuildScripts postbuildScripts : loc) : M (world D) value :=
  paths ← getProperty settings "paths";
  serviceFiles ← getProperty paths "serviceFiles";
  mosquittoConfFilePath ←
    pathJoin [VStr (__dirname node); serviceFiles; VStr "mosquitto.conf"];
  push zipList (zipEntry mosquittoConfFilePath);;
  push postbuildScripts
    (fragment "Ensure required service files exist for launch"
              checkServiceFilesCopied);;
  push prebuildScripts
    (fragment "Create required service directory exists for first launch"
              createVolumesDirectory);;
  push postbuildScripts
    (fragment "Ensure required service directory exists for launch"
              checkVolumesDirectory);;
  push postbuildScripts
    (fragment "Setup correct permissions for volume"
              (setupVolumePermissions (VBool true)));;
  mret (VObj [("type", VStr "service")]).

Definition build (buildOptions : O) (tmpPath : value)
    (zipList prebuildScripts postbuildScripts : loc)
    : world D → settlement * world D :=
  settle "build" (buildBody buildOptions tmpPath zipList prebuildScripts postbuildScripts).

(** The footprint of a call that only pushes onto the arrays at
    [targets]: the working document is the one it was, every other cell of
    the store is untouched, and an array only grows at its end. *)
Definition appendsOnly (targets : list loc) (w w' : world D) : Prop :=
  outputTemplateJson w' = outputTemplateJson w
  ∧ (∀ l, l ∉ targets → heap w' !! l = heap w !! l)
  ∧ (∀ l xs, heap w !! l = Some (VArr xs) →
             ∃ ys, heap w' !! l = Some (VArr (xs ++ ys)%list)).

End Builder.

(** The builder wired to the compile-merge helpers of a catalog. *)
Definition mergeHelpers (registry : string → option Catalog.OptionDescriptor)
    : commonCompileLogic CommonCompileLogic.WorkingDocument
                         CommonCompileLogic.BuildOptions :=
  {| setModifiedPorts := CommonCompileLogic.setModifiedPorts registry;
     setLoggingState := CommonCompileLogic.setLoggingState registry;
     setNetworkMode := CommonCompileLogic.setNetworkMode registry;
     setNetworks := CommonCompileLogic.setNetworks registry |}.

End ServiceBuilder.

(** ** Conditions on the inputs of a phase *)

Module Conditions.
Import ServiceBuilder.

(** [settings.paths.serviceFiles] when the two reads succeed and give a
    string, the only case in which [path.join] accepts it. *)
Definition serviceFilesPath (settings : value) : option string :=
  match getField "paths" settings with
  | Some paths =>
      match getField "serviceFiles" paths with
      | Some (VStr s) => Some s
      | _ => None
      end
  | None => None
  end.

(** Whether the cell at [l] is an array, that is, has a [push]. *)
Definition holdsArray (h : store) (l : loc) : bool :=
  match h !! l with
  | Some (VArr _) => true
  | _ => false
  end.

(** The five pushes of [build] once the path of the config file is known,
    in the order of the source. *)
Definition pushArtifacts {D : Type} (node : runtime) (fullPath : string)
    (zipList prebuildScripts postbuildScripts : loc) : M (world D) value :=
  push node zipList (zipEntry fullPath);;
  push node postbuildScripts
    (fragment "Ensure required service files exist for launch"
              checkServiceFilesCopied);;
  push node prebuildScripts
    (fragment "Create required service directory exists for first launch"
              createVolumesDirectory);;
  push node postbuildScripts
    (fragment "Ensure required service directory exists for launch"
              checkVolumesDirectory);;
  push node postbuildScripts
    (fragment "Setup correct permissions for volume"
              (setupVolumePermissions (VBool true)));;
  mret (VObj [("type", VStr "service")]).

(** The three post-build fragments of mosquitto, in the order pushed. *)
Definition postbuildFragments : list value :=
  [fragment "Ensure required service files exist for launch"
            checkServiceFilesCopied;
   fragment "Ensure required service directory exists for launch"
            checkVolumesDirectory;
   fragment "Setup correct permissions for volume"
            (setupVolumePermissions (VBool true))].

Definition prebuildFragment : value :=
  fragment "Create required service directory exists for first launch"
           createVolumesDirectory.


(** The values [if (v)] takes for false. *)
Definition falsyValues : list value :=
  [VUndef; VNull; VBool false; VNum (Finite 0%Qc); VNum NegZero; VNum NaN;
   VBigInt 0%Z; VStr ""].

(** How often the character [c] occurs in [s]. *)
Fixpoint occurrences (c : Ascii.ascii) (s : string) : nat :=
  match s with
  | EmptyString => 0%nat
  | String a rest => ((if Ascii.eqb a c then 1 else 0) + occurrences c rest)%nat
  end.

(** The double quote, as a one-character text. *)
Definition quote : string := String (Ascii.ascii_of_N 34) EmptyString.

(** The lines of a text, split at its line feeds. *)
Fixpoint lines (s : string) : list string :=
  match s with
  | EmptyString => [EmptyString]
  | String c rest =>
      if Ascii.eqb c (Ascii.ascii_of_N 10) then EmptyString :: lines rest
      else match lines rest with
           | line :: more => String c line :: more
           | [] => [String c EmptyString]
           end
  end.

End Conditions.

(** ** Concrete collaborators, used to run the builder *)

Module Fixtures.
Import Catalog CommonCompileLogic ServiceBuilder.

(** The errors of the engine used in the examples: records that own
    [stack] and [message]. *)
Definition raise (name message : string) : thrown :=
  Plain (VObj [("stack", VStr (name ++ ": " ++ message));
               ("message", VStr message)]).

(** [Object.getOwnPropertyNames] in that engine: [undefined] and [null]
    cannot be converted to an object; a record has its field names, an
    array or string its indices and [length], any other primitive none.
    The engine of the examples holds no exotic object. *)
Definition ownNames (err : thrown) : completion (list string) :=
  match err with
  | Plain VUndef | Plain VNull =>
      Throw (raise "TypeError" "Cannot convert undefined or null to object")
  | Plain (VObj own) => Normal own.*1
  | Plain (VArr xs) => Normal ((pretty <$> seq 0 (length xs)) ++ ["length"])%list
  | Plain (VStr s) => Normal ((pretty <$> seq 0 (String.length s)) ++ ["length"])%list
  | Plain _ => Normal []
  | Exotic _ => Normal []
  end.

(** The property list [JSON.stringify] builds from an array replacer: its
    names in order, each kept at its first occurrence. *)
Fixpoint propertyList (seen allow : list string) : list string :=
  match allow with
  | [] => []
  | k :: rest =>
      if bool_decide (k ∈ seen) then propertyList seen rest
      else k :: propertyList (k :: seen) rest
  end.

(** The members written for a record: the listed names in order, each read
    from the record and written in turn; a name whose value writes nothing
    is left out, and the first one that throws ends the writing. *)
Fixpoint members (written : list (string * completion (option json)))
    (names : list string) : completion (list (string * json)) :=
  match names with
  | [] => Normal []
  | k :: rest =>
      match field k written with
      | Some (Throw raised) => Throw raised
      | Some (Normal (Some doc)) =>
          match members written rest with
          | Normal more => Normal ((k, doc) :: more)
          | Throw raised => Throw raised
          end
      | Some (Normal None) | None => members written rest
      end
  end.

(** [JSON.stringify(v, allow)] in that engine, on values: [undefined]
    writes nothing, NaN and the infinities write [null], negative zero
    writes [0], a BigInt throws; an array writes [null] where an element
    writes nothing; a record writes the members named by the replacer.
    The records of the examples are plain data: a listed name that a record
    does not own reads as [undefined] and writes nothing. *)
Fixpoint write (allow : list string) (v : value) : completion (option json) :=
  match v with
  | VUndef => Normal None
  | VNull => Normal (Some JNull)
  | VBool b => Normal (Some (JBool b))
  | VNum (Finite q) => Normal (Some (JNum q))
  | VNum NegZero => Normal (Some (JNum 0%Qc))
  | VNum _ => Normal (Some JNull)
  | VBigInt _ => Throw (raise "TypeError" "Do not know how to serialize a BigInt")
  | VStr s => Normal (Some (JStr s))
  | VArr xs =>
      match (fix elements (l : list value) : completion (list json) :=
               match l with
               | [] => Normal []
               | x :: l' =>
                   match write allow x with
                   | Throw raised => Throw raised
                   | Normal doc =>
                       match elements l' with
                       | Throw raised => Throw raised
                       | Normal docs => Normal (default JNull doc :: docs)
                       end
                   end
               end) xs with
      | Normal docs => Normal (Some (JArr docs))
      | Throw raised => Throw raised
      end
  | VObj own =>
      match members (map (λ kv, (kv.1, write allow kv.2)) own)
                    (propertyList [] allow) with
      | Normal written => Normal (Some (JObj written))
      | Throw raised => Throw raised
      end
  end.

Definition stringify (err : thrown) (allow : list string)
    : completion (option json) :=
  match err with
  | Plain v => write allow v
  | Exotic _ => Throw (raise "TypeError" "Converting circular structure to JSON")
  end.

(** A runtime whose [path.join] meets segments that need no normalising. *)
Definition node : runtime :=
  {| __dirname := "/IOTstack/.internal/templates/services/mosquitto";
     path_join := String.concat "/";
     TypeError := raise "TypeError";
     SyntaxError := raise "SyntaxError";
     Object_getOwnPropertyNames := ownNames;
     JSON_stringify := stringify |}.

Definition settings : value :=
  VObj [("paths", VObj [("serviceFiles", VStr "serviceFiles")])].

(** A descriptor for mosquitto in the shape of the catalog's; the template
    itself is not among the sources. *)
Definition mosquittoOptions : OptionDescriptor :=
  {| Catalog.serviceName := "mosquitto";
     labeledPorts := [({| host := 1883; container := 1883 |}, "mqtt")];
     modifyableEnvironment := [];
     volumes := true;
     imageTags := [];
     networks := true;
     logging := true |}.

Definition registry (name : string) : option OptionDescriptor :=
  if String.eqb name "mosquitto" then Some mosquittoOptions
  else List.find (λ d, String.eqb (Catalog.serviceName d) name)
                 (Catalog.getConfigOptions <$> [prometheus; influxDb; espruinohub]).

Definition logic : commonCompileLogic WorkingDocument BuildOptions :=
  mergeHelpers registry.

(** Helpers whose port merge meets a fault. *)
Definition faultyLogic : commonCompileLogic WorkingDocument BuildOptions :=
  {| setModifiedPorts := λ _ _, throw (raise "TypeError" "ports is not iterable");
     setLoggingState := CommonCompileLogic.setLoggingState registry;
     setNetworkMode := CommonCompileLogic.setNetworkMode registry;
     setNetworks := CommonCompileLogic.setNetworks registry |}.

Definition issue (kind message : string) (affected : list string) : value :=
  VObj [("component", VStr "mosquitto");
        ("kind", VStr kind);
        ("message", VStr message);
        ("affectedServices", VArr (VStr <$> affected))].

(** Checkers that find two port collisions, one missing companion and a
    network conflict. *)
Definition busyChecks : commonBuildChecks WorkingDocument BuildOptions :=
  {| checkPortConflicts := λ _ _ _,
       Normal [issue "port" "1883 is taken" ["mosquitto"; "nodered"];
               issue "port" "9001 is taken" ["mosquitto"; "portainer"]];
     checkNetworkConflicts := λ _ _ _,
       Normal (issue "network" "host networking is exclusive" ["mosquitto"]);
     checkDependencyServices := λ _ _ _,
       Normal [issue "dependency" "nodered is required" ["nodered"]] |}.

Definition quietChecks : commonBuildChecks WorkingDocument BuildOptions :=
  {| checkPortConflicts := λ _ _ _, Normal [];
     checkNetworkConflicts := λ _ _ _, Normal VNull;
     checkDependencyServices := λ _ _ _, Normal [] |}.

(** Checkers whose dependency check meets a fault. *)
Definition faultyChecks : commonBuildChecks WorkingDocument BuildOptions :=
  {| checkPortConflicts := λ _ _ _, Normal [];
     checkNetworkConflicts := λ _ _ _, Normal VNull;
     checkDependencyServices := λ _ _ _,
       Throw (raise "TypeError" "Cannot read properties of undefined (reading 'services')") |}.

Definition emptyBlock : Block :=
  {| ports := ∅; environment := []; blockVolumes := [];
     network_mode := None; loggingEnabled := false; blockNetworks := ∅ |}.

Definition document : WorkingDocument :=
  {[ "mosquitto" := {| ports := {[ 1883 := 1883 ]};
                       environment := [];
                       blockVolumes := ["./volumes/mosquitto/data:/mosquitto/data"];
                       network_mode := None;
                       loggingEnabled := false;
                       blockNetworks := ∅ |} ]}.

Definition options : BuildOptions :=
  {[ "mosquitto" := {| portRemaps := [{| declared := {| host := 1883; container := 1883 |};
                                         newHost := 1884 |};
                                      {| declared := {| host := 9001; container := 9001 |};
                                         newHost := 9002 |}];
                       loggingChoice := Some true;
                       networkModeChoice := None;
                       networksChoice := ["iotstack_nw"] |} ]}.

(** Three distinct empty arrays, at locations 0, 1 and 2. *)
Definition freshWorld : world WorkingDocument :=
  {| outputTemplateJson := document;
     heap := {[ 0%nat := VArr []; 1%nat := VArr []; 2%nat := VArr [] ]} |}.

(** One empty array passed for both script lists. *)
Definition sharedWorld : world WorkingDocument :=
  {| outputTemplateJson := document;
     heap := {[ 0%nat := VArr []; 1%nat := VArr [] ]} |}.

(** Helpers that find nothing to change. *)
Definition idleLogic : commonCompileLogic WorkingDocument BuildOptions :=
  {| setModifiedPorts := λ _ _ d, (Normal (VBool false), d);
     setLoggingState := λ _ _ d, (Normal (VBool false), d);
     setNetworkMode := λ _ _ d, (Normal (VBool false), d);
     setNetworks := λ _ _ d, (Normal (VBool false), d) |}.

(** Helpers whose network-mode merge meets a fault after the port and
    logging merges went through. *)
Definition lateFaultLogic : commonCompileLogic WorkingDocument BuildOptions :=
  {| setModifiedPorts := CommonCompileLogic.setModifiedPorts registry;
     setLoggingState := CommonCompileLogic.setLoggingState registry;
     setNetworkMode := λ _ _, throw (raise "TypeError" "network_mode is not a string");
     setNetworks := CommonCompileLogic.setNetworks registry |}.

(** Checkers whose port check and dependency check both meet a fault. *)
Definition doubleFaultChecks : commonBuildChecks WorkingDocument BuildOptions :=
  {| checkPortConflicts := λ _ _ _, Throw (raise "TypeError" "ports is not iterable");
     checkNetworkConflicts := λ _ _ _, Normal VNull;
     checkDependencyServices := λ _ _ _, Throw (raise "RangeError" "too many services") |}.




(** Lists that already hold the artifacts of an earlier service. *)
Definition usedWorld : world WorkingDocument :=
  {| outputTemplateJson := document;
     heap := {[ 0%nat := VArr [VObj [("fullPath", VStr "/IOTstack/nodered/build.sh");
                                      ("zipName", VStr "/services/nodered/build.sh")]];
                1%nat := VArr [VStr "pre: nodered"];
                2%nat := VArr [VStr "post: nodered"] ]} |}.

(** A store in which the post-build list is missing. *)
Definition brokenWorld : world WorkingDocument :=
  {| outputTemplateJson := document;
     heap := {[ 0%nat := VArr []; 1%nat := VArr [] ]} |}.

End Fixtures.

(** * Properties *)

Import Catalog CommonCompileLogic ServiceBuilder Conditions.

(** ** How a phase settles *)

Section Settling.
Variable node : runtime.

Lemma errorSnapshot_returns err names doc :
  Object_getOwnPropertyNames node err = Normal names →
  JSON_stringify node err names = Normal (Some doc) →
  errorSnapshot node err = Normal (ofJson doc).
Proof.
  intros Hnames Htext. unfold errorSnapshot, mbind, completion_bind.
  by rewrite Hnames, Htext.
Qed.

Lemma rejectUnhandled_returns phase err names doc :
  Object_getOwnPropertyNames node err = Normal names →
  JSON_stringify node err names = Normal (Some doc) →
  rejectUnhandled node phase err = Rejected (Plain (unhandled phase (ofJson doc))).
Proof.
  intros Hnames Htext. unfold rejectUnhandled.
  by rewrite (errorSnapshot_returns err names doc Hnames Htext).
Qed.




Lemma rejectUnhandled_rejects phase err :
  ∃ r, rejectUnhandled node phase err = Rejected r.
Proof. unfold rejectUnhandled. destruct (errorSnapshot node err); by eexists. Qed.

Lemma conclude_resolved phase c v :
  conclude node phase c = Resolved v → c = Normal v.
Proof.
  destruct c as [v'|err]; simpl; [by intros [= ->]|].
  by destruct (rejectUnhandled_rejects phase err) as (r & ->).
Qed.

Lemma conclude_rejected phase c r :
  conclude node phase c = Rejected r →
  ∃ err, c = Throw err ∧ rejectUnhandled node phase err = Rejected r.
Proof. destruct c as [v'|err]; simpl; [done|]. intros H. by exists err. Qed.

Lemma settle_resolved {S} phase (body : M S value) s v s' :
  settle node phase body s = (Resolved v, s') → body s = (Normal v, s').
Proof.
  unfold settle. destruct (body s) as [c s'']. intros [= Hc <-].
  by apply conclude_resolved in Hc as ->.
Qed.

Lemma settle_rejected {S} phase (body : M S value) s r s' :
  settle node phase body s = (Rejected r, s') →
  ∃ err, body s = (Throw err, s') ∧ rejectUnhandled node phase err = Rejected r.
Proof.
  unfold settle. destruct (body s) as [c s'']. intros [= Hc <-].
  apply conclude_rejected in Hc as (err & -> & Hr). by exists err.
Qed.
End Settling.

(** ** The bodies of the three phases *)

(** Runs a phase body one helper call at a time. *)
Ltac run_body :=
  repeat match goal with
         | |- context [match ?m with (c, s) => _ end] =>
             let o := fresh "outcome" in
             let E := fresh "Hcall" in
             destruct m as [[o|o] ?] eqn:E; simpl
         | |- context [match ?m with Normal _ => _ | Throw _ => _ end] =>
             let o := fresh "outcome" in
             let E := fresh "Hcall" in
             destruct m as [o|o] eqn:E; simpl
         end.

Section Bodies.
Context {D O : Type}.
Variable settings : value.
Variable logic : commonCompileLogic D O.
Variable checks : commonBuildChecks D O.
Variable node : runtime.

Lemma compileBody_normal o d v d' :
  compileBody logic o d = (Normal v, d') → v = VObj [("type", VStr "service")].
Proof.
  unfold compileBody, mbind, M_bind, mret, M_ret.
  run_body; intros; by simplify_eq.
Qed.

Lemma issuesBody_normal doc o ps ds n :
  checkPortConflicts checks doc o serviceName = Normal ps →
  checkDependencyServices checks doc o serviceName = Normal ds →
  checkNetworkConflicts checks doc o serviceName = Normal n →
  issuesBody checks doc o
  = Normal (VArr (ps ++ ds ++ (if truthy n then [n] else []))%list).
Proof.
  unfold issuesBody, mbind, completion_bind, mret, completion_ret.
  intros -> -> ->. simpl.
  destruct (truthy n); [by rewrite (assoc_L (++))|by rewrite app_nil_r].
Qed.

Lemma issuesBody_normal_inv doc o v :
  issuesBody checks doc o = Normal v →
  ∃ ps ds n,
    checkPortConflicts checks doc o serviceName = Normal ps
    ∧ checkDependencyServices checks doc o serviceName = Normal ds
    ∧ checkNetworkConflicts checks doc o serviceName = Normal n
    ∧ v = VArr (ps ++ ds ++ (if truthy n then [n] else []))%list.
Proof.
  intros Hbody.
  destruct (checkPortConflicts checks doc o serviceName) as [ps|e] eqn:Hp;
    [|by unfold issuesBody in Hbody; rewrite Hp in Hbody].
  destruct (checkDependencyServices checks doc o serviceName) as [ds|e] eqn:Hd;
    [|by unfold issuesBody in Hbody; rewrite Hp in Hbody; simpl in Hbody;
         rewrite Hd in Hbody].
  destruct (checkNetworkConflicts checks doc o serviceName) as [n|e] eqn:Hn;
    [|by unfold issuesBody in Hbody; rewrite Hp in Hbody; simpl in Hbody;
         rewrite Hd in Hbody; simpl in Hbody; rewrite Hn in Hbody].
  rewrite (issuesBody_normal doc o ps ds n Hp Hd Hn) in Hbody.
  injection Hbody as <-. by exists ps, ds, n.
Qed.

Lemma issuesBody_throw doc o err :
  issuesBody checks doc o = Throw err →
  checkPortConflicts checks doc o serviceName = Throw err
  ∨ checkDependencyServices checks doc o serviceName = Throw err
  ∨ checkNetworkConflicts checks doc o serviceName = Throw err.
Proof.
  unfold issuesBody, mbind, completion_bind, mret, completion_ret.
  run_body; intros; simplify_eq; auto.
Qed.

Lemma buildBody_normal (o : O) tmp z pre post (w : world D) v w' :
  buildBody settings node o tmp z pre post w = (Normal v, w') →
  v = VObj [("type", VStr "service")].
Proof.
  unfold buildBody, mbind, M_bind, mret, M_ret.
  run_body; intros; by simplify_eq.
Qed.
End Bodies.

Section Paths.
Context {D O : Type}.
Variable node : runtime.

Lemma buildBody_with_path settings (o : O) tmp z pre post (w : world D) s :
  serviceFilesPath settings = Some s →
  buildBody settings node o tmp z pre post w
  = pushArtifacts node (path_join node [__dirname node; s; "mosquitto.conf"])
      z pre post w.
Proof.
  unfold serviceFilesPath. intros H.
  destruct settings as [| | | | | | |own]; try done. simpl in H.
  destruct (field "paths" own) as [paths|] eqn:E1; [|done].
  destruct paths as [| | | | | | |own']; try done. simpl in H.
  destruct (field "serviceFiles" own') as [[| | | | |s'| |]|] eqn:E2; try done.
  injection H as ->.
  unfold buildBody, pushArtifacts, mbind, M_bind, getProperty, mret, M_ret.
  rewrite E1. simpl. by rewrite E2.
Qed.

Lemma buildBody_without_path settings (o : O) tmp z pre post (w : world D) :
  serviceFilesPath settings = None →
  ∃ err, buildBody settings node o tmp z pre post w = (Throw err, w).
Proof.
  unfold serviceFilesPath, buildBody, mbind, M_bind, getProperty, mret, M_ret.
  intros H.
  destruct settings as [| | | | | | |own]; try (eexists; reflexivity).
  simpl in H. destruct (field "paths" own) as [paths|] eqn:E1;
    [|eexists; reflexivity].
  destruct paths as [| | | | | | |own']; try (eexists; reflexivity).
  simpl in *. destruct (field "serviceFiles" own') as [[| | | | |s'| |]|] eqn:E2;
    try done; eexists; reflexivity.
Qed.

End Paths.

(** ** The footprint of build *)

Section Footprint.
Context {D : Type}.
Variable node : runtime.

Lemma appendsOnly_refl targets (w : world D) : appendsOnly targets w w.
Proof.
  split; [done|]. split; [done|].
  intros l xs Hl. exists []. by rewrite app_nil_r.
Qed.

Lemma appendsOnly_trans targets (w1 w2 w3 : world D) :
  appendsOnly targets w1 w2 → appendsOnly targets w2 w3 →
  appendsOnly targets w1 w3.
Proof.
  intros (Hd1 & Hf1 & Ha1) (Hd2 & Hf2 & Ha2). split; [|split].
  - congruence.
  - intros l Hl. rewrite Hf2, Hf1; done.
  - intros l xs Hl.
    destruct (Ha1 l xs Hl) as (ys & Hys).
    destruct (Ha2 l _ Hys) as (zs & Hzs).
    exists (ys ++ zs)%list. by rewrite (assoc_L (++)).
Qed.

Lemma push_array target v (w : world D) xs :
  heap w !! target = Some (VArr xs) →
  push node target v w
  = (Normal tt, Build_world (outputTemplateJson w)
                  (<[target := VArr (xs ++ [v])%list]> (heap w))).
Proof. unfold push. by intros ->. Qed.

Lemma push_appendsOnly targets target v (w w' : world D) c :
  target ∈ targets →
  push node target v w = (c, w') → appendsOnly targets w w'.
Proof.
  intros Hin. unfold push.
  destruct (heap w !! target) as [[| | | | | |xs|]|] eqn:Hcell;
    intros [= <- <-]; try apply appendsOnly_refl.
  split; [done|]. split; simpl.
  - intros l Hl. apply lookup_insert_ne. by intros ->.
  - intros l ys Hl. destruct (decide (l = target)) as [->|Hne].
    + rewrite lookup_insert_eq. exists [v]. congruence.
    + rewrite lookup_insert_ne by done. exists []. by rewrite app_nil_r.
Qed.

Lemma getProperty_state {S} v k (s : S) c s' :
  getProperty node v k s = (c, s') → s' = s.
Proof. destruct v; simpl; by intros [= <- <-]. Qed.

Lemma pathJoin_state {S} segments (s : S) c s' :
  pathJoin node segments s = (c, s') → s' = s.
Proof. unfold pathJoin. destruct (mapM _ _); by intros [= <- <-]. Qed.
End Footprint.

(** Whatever its outcome, the build body only pushes onto its three list
    arguments. *)
Lemma buildBody_appendsOnly {D O : Type} settings node (o : O) tmp z pre post
    (w w' : world D) c :
  buildBody settings node o tmp z pre post w = (c, w') →
  appendsOnly [z; pre; post] w w'.
Proof.
  unfold buildBody, mbind, M_bind, mret, M_ret.
  run_body; intros; simplify_eq;
    repeat match goal with
           | H : getProperty _ _ _ _ = _ |- _ => apply getProperty_state in H; subst
           | H : pathJoin _ _ _ = _ |- _ => apply pathJoin_state in H; subst
           | H : push _ ?t _ _ = _ |- _ =>
               apply (push_appendsOnly _ [z; pre; post]) in H; [|set_solver]
           end;
    repeat match goal with
           | H1 : appendsOnly _ ?a ?b, H2 : appendsOnly _ ?b ?c |- _ =>
               pose proof (appendsOnly_trans _ _ _ _ H1 H2); clear H1 H2
           end;
    first [assumption | apply appendsOnly_refl].
Qed.

(** ** The compile-merge helpers are idempotent *)

Section Merges.
Variable d : OptionDescriptor.

Lemma acceptRemap_union published r :
  acceptRemap d published r = acceptRemap d ∅ r ∪ published.
Proof.
  unfold acceptRemap. case_bool_decide.
  - by rewrite insert_union_singleton_l, insert_empty.
  - by rewrite (left_id_L ∅ (∪)).
Qed.

Lemma foldl_acceptRemap_union remaps published :
  foldl (acceptRemap d) published remaps
  = foldl (acceptRemap d) ∅ remaps ∪ published.
Proof.
  revert published. induction remaps as [|r remaps IH]; intros published; simpl.
  - by rewrite (left_id_L ∅ (∪)).
  - rewrite IH, (IH (acceptRemap d ∅ r)), (acceptRemap_union published).
    by rewrite (assoc_L (∪)).
Qed.

Lemma foldl_acceptRemap_twice remaps published :
  foldl (acceptRemap d) (foldl (acceptRemap d) published remaps) remaps
  = foldl (acceptRemap d) published remaps.
Proof.
  rewrite (foldl_acceptRemap_union remaps (foldl _ _ _)).
  rewrite (foldl_acceptRemap_union remaps published).
  by rewrite (assoc_L (∪)), (idemp_L (∪)).
Qed.

(** What the four merges of one compile leave in a block, field by field. *)
Lemma merges_fields o b :
  networksMerge d o (networkModeMerge d o (loggingMerge d o (portMerge d o b)))
  = {| ports := foldl (acceptRemap d) (ports b) (portRemaps o);
       environment := environment b;
       blockVolumes := blockVolumes b;
       network_mode :=
         match networkModeChoice o with
         | Some mode => if networks d then Some mode else network_mode b
         | None => network_mode b
         end;
       loggingEnabled :=
         match loggingChoice o with
         | Some on => if logging d then on else loggingEnabled b
         | None => loggingEnabled b
         end;
       blockNetworks :=
         if networks d then blockNetworks b ∪ list_to_set (networksChoice o)
         else blockNetworks b |}.
Proof.
  destruct b as [p e v m l n].
  unfold portMerge. cbn [ports environment blockVolumes network_mode loggingEnabled blockNetworks].
  unfold loggingMerge.
  destruct (loggingChoice o), (logging d);
    cbn [ports environment blockVolumes network_mode loggingEnabled blockNetworks];
    unfold networkModeMerge;
    destruct (networkModeChoice o), (networks d) eqn:Hnetworks;
    cbn [ports environment blockVolumes network_mode loggingEnabled blockNetworks];
    unfold networksMerge; rewrite Hnetworks;
    cbn [ports environment blockVolumes network_mode loggingEnabled blockNetworks];
    reflexivity.
Qed.

(** The four merges of one compile, in the order compile calls them. *)
Lemma merges_twice o b :
  let merged b := networksMerge d o (networkModeMerge d o (loggingMerge d o (portMerge d o b))) in
  merged (merged b) = merged b.
Proof.
  cbv beta zeta. rewrite !merges_fields.
  cbn [ports environment blockVolumes network_mode loggingEnabled blockNetworks].
  f_equal.
  - apply foldl_acceptRemap_twice.
  - by destruct (networkModeChoice o), (networks d).
  - by destruct (loggingChoice o), (logging d).
  - destruct (networks d); [|reflexivity].
    by rewrite <- (assoc_L (∪)), (idemp_L (∪)).
Qed.
End Merges.

Lemma applyMerge_alter registry merge (doc : WorkingDocument) (o : BuildOptions) name d so :
  registry name = Some d → o !! name = Some so →
  applyMerge registry merge doc o name = alter (merge d so) name doc.
Proof. unfold applyMerge. by intros -> ->. Qed.

Lemma applyMerge_skip registry merge (doc : WorkingDocument) (o : BuildOptions) name :
  registry name = None ∨ o !! name = None →
  applyMerge registry merge doc o name = doc.
Proof.
  unfold applyMerge. intros [-> | ->]; [done|]. by destruct (registry name).
Qed.

(** What compile leaves in the document, with the helpers of a catalog. *)
Lemma compile_mergeHelpers registry node (o : BuildOptions) (doc : WorkingDocument) :
  compile (mergeHelpers registry) node o doc
  = (Resolved (VObj [("type", VStr "service")]),
     applyMerge registry networksMerge
       (applyMerge registry networkModeMerge
          (applyMerge registry loggingMerge
             (applyMerge registry portMerge doc o serviceName) o serviceName)
          o serviceName) o serviceName).
Proof. reflexivity. Qed.

(** ** What a failed phase hands to the orchestrator *)

(** C1, as the code has it: whenever compile, issues or build rejects, its
    body threw some [err]; and if the catch block can take the snapshot of
    [err], that is [Object.getOwnPropertyNames(err)] returns and
    [JSON.stringify] writes a text for it, then the rejected value is a
    record with exactly the fields [component], [message] and [error], in
    that order; [component] is the string
    [ServiceBuilder::<phase>() - 'mosquitto'] and [message] is
    ['Unhandled error occured'].  There is no [phase], [serviceName],
    [cause] or [inputSnapshot] field. *)
Theorem rejection_fields {D O : Type} (settings : value)
    (logic : commonCompileLogic D O) (checks : commonBuildChecks D O)
    (node : runtime) :
  (∀ (o : O) (d d' : D) r,
      compile logic node o d = (Rejected r, d') →
      ∃ err,
        compileBody logic o d = (Throw err, d')
        ∧ ∀ names doc,
            Object_getOwnPropertyNames node err = Normal names →
            JSON_stringify node err names = Normal (Some doc) →
            ∃ v, r = Plain v
                 ∧ fieldNames v = ["component"; "message"; "error"]
                 ∧ getField "component" v
                   = Some (VStr "ServiceBuilder::compile() - 'mosquitto'")
                 ∧ getField "message" v = Some (VStr "Unhandled error occured"))
  ∧ (∀ (doc : D) (o : O) tmp r,
      issues checks node doc o tmp = Rejected r →
      ∃ err,
        issuesBody checks doc o = Throw err
        ∧ ∀ names snapshot,
            Object_getOwnPropertyNames node err = Normal names →
            JSON_stringify node err names = Normal (Some snapshot) →
            ∃ v, r = Plain v
                 ∧ fieldNames v = ["component"; "message"; "error"]
                 ∧ getField "component" v
                   = Some (VStr "ServiceBuilder::issues() - 'mosquitto'")
                 ∧ getField "message" v = Some (VStr "Unhandled error occured"))
  ∧ (∀ (o : O) tmp z pre post (w w' : world D) r,
      build settings node o tmp z pre post w = (Rejected r, w') →
      ∃ err,
        buildBody settings node o tmp z pre post w = (Throw err, w')
        ∧ ∀ names doc,
            Object_getOwnPropertyNames node err = Normal names →
            JSON_stringify node err names = Normal (Some doc) →
            ∃ v, r = Plain v
                 ∧ fieldNames v = ["component"; "message"; "error"]
                 ∧ getField "component" v
                   = Some (VStr "ServiceBuilder::build() - 'mosquitto'")
                 ∧ getField "message" v = Some (VStr "Unhandled error occured")).
Proof.
  split; [|split].
  - intros o d d' r H. apply settle_rejected in H as (err & Hbody & Hr).
    exists err. split; [done|]. intros names doc Hnames Htext.
    rewrite (rejectUnhandled_returns node _ err names doc Hnames Htext) in Hr.
    injection Hr as <-. eexists. by repeat split.
  - intros doc o tmp r H. apply conclude_rejected in H as (err & Hbody & Hr).
    exists err. split; [done|]. intros names snapshot Hnames Htext.
    rewrite (rejectUnhandled_returns node _ err names snapshot Hnames Htext) in Hr.
    injection Hr as <-. eexists. by repeat split.
  - intros o tmp z pre post w w' r H.
    apply settle_rejected in H as (err & Hbody & Hr).
    exists err. split; [done|]. intros names doc Hnames Htext.
    rewrite (rejectUnhandled_returns node _ err names doc Hnames Htext) in Hr.
    injection Hr as <-. eexists. by repeat split.
Qed.

Lemma rejection_fields_witness :
  (∃ v, Plain (unhandled "compile"
                 (VObj [("stack", VStr "TypeError: ports is not iterable");
                        ("message", VStr "ports is not iterable")])) = Plain v
        ∧ fieldNames v = ["component"; "message"; "error"]
        ∧ getField "component" v
          = Some (VStr "ServiceBuilder::compile() - 'mosquitto'")
        ∧ getField "message" v = Some (VStr "Unhandled error occured"))
  ∧ (∃ v, Plain (unhandled "issues"
                   (VObj [("stack", VStr "TypeError: Cannot read properties of undefined (reading 'services')");
                          ("message", VStr "Cannot read properties of undefined (reading 'services')")]))
          = Plain v
          ∧ fieldNames v = ["component"; "message"; "error"]
          ∧ getField "component" v
            = Some (VStr "ServiceBuilder::issues() - 'mosquitto'")
          ∧ getField "message" v = Some (VStr "Unhandled error occured"))
  ∧ (∃ v, Plain (unhandled "build"
                   (VObj [("stack", VStr "TypeError: Cannot read properties of undefined or null (reading 'paths')");
                          ("message", VStr "Cannot read properties of undefined or null (reading 'paths')")]))
          = Plain v
          ∧ fieldNames v = ["component"; "message"; "error"]
          ∧ getField "component" v
            = Some (VStr "ServiceBuilder::build() - 'mosquitto'")
          ∧ getField "message" v = Some (VStr "Unhandled error occured")).
Proof.
  destruct (rejection_fields VUndef Fixtures.faultyLogic Fixtures.faultyChecks
              Fixtures.node) as (Hcompile & Hissues & Hbuild).
  split; [|split].
  - destruct (Hcompile Fixtures.options Fixtures.document Fixtures.document
                (Plain (unhandled "compile"
                   (VObj [("stack", VStr "TypeError: ports is not iterable");
                          ("message", VStr "ports is not iterable")]))))
      as (err & Hbody & Hshape); [vm_compute; reflexivity|].
    injection Hbody as <-.
    apply (Hshape ["stack"; "message"]
             (JObj [("stack", JStr "TypeError: ports is not iterable");
                    ("message", JStr "ports is not iterable")]));
      vm_compute; reflexivity.
  - destruct (Hissues Fixtures.document Fixtures.options VUndef
                (Plain (unhandled "issues"
                   (VObj [("stack", VStr "TypeError: Cannot read properties of undefined (reading 'services')");
                          ("message", VStr "Cannot read properties of undefined (reading 'services')")]))))
      as (err & Hbody & Hshape); [vm_compute; reflexivity|].
    injection Hbody as <-.
    apply (Hshape ["stack"; "message"]
             (JObj [("stack", JStr "TypeError: Cannot read properties of undefined (reading 'services')");
                    ("message", JStr "Cannot read properties of undefined (reading 'services')")]));
      vm_compute; reflexivity.
  - destruct (Hbuild Fixtures.options VUndef 0%nat 1%nat 2%nat Fixtures.freshWorld
                Fixtures.freshWorld
                (Plain (unhandled "build"
                   (VObj [("stack", VStr "TypeError: Cannot read properties of undefined or null (reading 'paths')");
                          ("message", VStr "Cannot read properties of undefined or null (reading 'paths')")]))))
      as (err & Hbody & Hshape); [vm_compute; reflexivity|].
    injection Hbody as <-.
    apply (Hshape ["stack"; "message"]
             (JObj [("stack", JStr "TypeError: Cannot read properties of undefined or null (reading 'paths')");
                    ("message", JStr "Cannot read properties of undefined or null (reading 'paths')")]));
      vm_compute; reflexivity.
Defined.

(** C1 as stated fails: a compile whose port merge throws rejects with a
    record that has none of the fields [phase], [serviceName], [cause],
    [inputSnapshot]. *)
Lemma rejection_fields_not_as_specified :
  ∃ r d',
    compile Fixtures.faultyLogic Fixtures.node Fixtures.options Fixtures.document
    = (Rejected (Plain r), d')
    ∧ fieldNames r = ["component"; "message"; "error"]
    ∧ hasField "phase" r = false
    ∧ hasField "serviceName" r = false
    ∧ hasField "cause" r = false
    ∧ hasField "inputSnapshot" r = false.
Proof. eexists. eexists. split; [vm_compute; reflexivity|]. by repeat split. Qed.

(** ** What a successful compile or build resolves with *)

(** C2, as the code has it: every successful compile and every successful
    build resolves with the record [{ type: 'service' }]. *)
Theorem resolved_value {D O : Type} (settings : value)
    (logic : commonCompileLogic D O) (node : runtime) :
  (∀ (o : O) (d d' : D) v,
      compile logic node o d = (Resolved v, d') →
      v = VObj [("type", VStr "service")])
  ∧ (∀ (o : O) tmp z pre post (w w' : world D) v,
      build settings node o tmp z pre post w = (Resolved v, w') →
      v = VObj [("type", VStr "service")]).
Proof.
  split.
  - intros o d d' v H. apply settle_resolved in H. by eapply compileBody_normal.
  - intros o tmp z pre post w w' v H. apply settle_resolved in H.
    by eapply buildBody_normal.
Qed.

Lemma resolved_value_witness :
  (∃ v d', compile Fixtures.logic Fixtures.node Fixtures.options Fixtures.document
           = (Resolved v, d')
           ∧ v = VObj [("type", VStr "service")])
  ∧ (∃ v w', build Fixtures.settings Fixtures.node Fixtures.options VUndef
               0%nat 1%nat 2%nat Fixtures.freshWorld = (Resolved v, w')
             ∧ v = VObj [("type", VStr "service")]).
Proof.
  destruct (resolved_value Fixtures.settings Fixtures.logic Fixtures.node)
    as (Hcompile & Hbuild).
  split.
  - eexists. eexists. split; [vm_compute; reflexivity|].
    eapply (Hcompile Fixtures.options Fixtures.document).
    vm_compute. reflexivity.
  - eexists. eexists. split; [vm_compute; reflexivity|].
    eapply (Hbuild Fixtures.options VUndef 0%nat 1%nat 2%nat Fixtures.freshWorld).
    vm_compute. reflexivity.
Defined.

(** C2 as stated fails: the resolved record has no [kind] field. *)
Lemma resolved_value_not_kind :
  ∃ v d',
    compile Fixtures.logic Fixtures.node Fixtures.options Fixtures.document
    = (Resolved v, d')
    ∧ v ≠ VObj [("kind", VStr "service")]
    ∧ hasField "kind" v = false
    ∧ getField "type" v = Some (VStr "service").
Proof. eexists. eexists. split; [vm_compute; reflexivity|]. by repeat split. Qed.

(** ** issues: conflicts are data *)

(** C3: when none of the three checkers throws, issues resolves with the
    array of their findings, whatever they found; and issues rejects only
    when one of the checkers threw. *)
Theorem issues_conflicts_are_data {D O : Type} (checks : commonBuildChecks D O)
    (node : runtime) (doc : D) (o : O) (tmp : value) :
  (∀ ps ds n,
      checkPortConflicts checks doc o serviceName = Normal ps →
      checkDependencyServices checks doc o serviceName = Normal ds →
      checkNetworkConflicts checks doc o serviceName = Normal n →
      issues checks node doc o tmp
      = Resolved (VArr (ps ++ ds ++ (if truthy n then [n] else []))%list))
  ∧ (∀ r,
      issues checks node doc o tmp = Rejected r →
      ∃ err,
        checkPortConflicts checks doc o serviceName = Throw err
        ∨ checkDependencyServices checks doc o serviceName = Throw err
        ∨ checkNetworkConflicts checks doc o serviceName = Throw err).
Proof.
  split.
  - intros ps ds n Hp Hd Hn. unfold issues.
    by rewrite (issuesBody_normal checks doc o ps ds n Hp Hd Hn).
  - intros r H. apply conclude_rejected in H as (err & Hbody & _).
    exists err. by apply issuesBody_throw.
Qed.

Lemma issues_conflicts_are_data_witness :
  issues Fixtures.busyChecks Fixtures.node Fixtures.document Fixtures.options VUndef
  = Resolved (VArr [
      Fixtures.issue "port" "1883 is taken" ["mosquitto"; "nodered"];
      Fixtures.issue "port" "9001 is taken" ["mosquitto"; "portainer"];
      Fixtures.issue "dependency" "nodered is required" ["nodered"];
      Fixtures.issue "network" "host networking is exclusive" ["mosquitto"]])
  ∧ ∃ err,
      checkPortConflicts Fixtures.faultyChecks Fixtures.document Fixtures.options
        serviceName = Throw err
      ∨ checkDependencyServices Fixtures.faultyChecks Fixtures.document
          Fixtures.options serviceName = Throw err
      ∨ checkNetworkConflicts Fixtures.faultyChecks Fixtures.document
          Fixtures.options serviceName = Throw err.
Proof.
  split.
  - apply (proj1 (issues_conflicts_are_data Fixtures.busyChecks Fixtures.node
                    Fixtures.document Fixtures.options VUndef)
             [Fixtures.issue "port" "1883 is taken" ["mosquitto"; "nodered"];
              Fixtures.issue "port" "9001 is taken" ["mosquitto"; "portainer"]]
             [Fixtures.issue "dependency" "nodered is required" ["nodered"]]
             (Fixtures.issue "network" "host networking is exclusive" ["mosquitto"]));
      reflexivity.
  - eapply (proj2 (issues_conflicts_are_data Fixtures.faultyChecks Fixtures.node
                     Fixtures.document Fixtures.options VUndef)).
    vm_compute. reflexivity.
Defined.

(** C4: in what issues resolves with, the findings of the port checker are
    all there, one element each, while the network checker contributes one
    element when what it returned is truthy and nothing otherwise. *)
Theorem network_check_adds_at_most_one {D O : Type}
    (checks : commonBuildChecks D O) (node : runtime) (doc : D) (o : O)
    (tmp v : value) :
  issues checks node doc o tmp = Resolved v →
  ∃ ps ds n contribution,
    checkPortConflicts checks doc o serviceName = Normal ps
    ∧ checkDependencyServices checks doc o serviceName = Normal ds
    ∧ checkNetworkConflicts checks doc o serviceName = Normal n
    ∧ v = VArr (ps ++ ds ++ contribution)%list
    ∧ (length contribution ≤ 1)%nat
    ∧ (truthy n = true → contribution = [n])
    ∧ (truthy n = false → contribution = []).
Proof.
  intros H. apply conclude_resolved, issuesBody_normal_inv in H
    as (ps & ds & n & Hp & Hd & Hn & ->).
  exists ps, ds, n, (if truthy n then [n] else []).
  repeat (split; [done|]).
  destruct (truthy n); simpl; repeat split; (lia || done).
Qed.

Lemma network_check_adds_at_most_one_witness :
  ∃ ps ds n contribution,
    checkPortConflicts Fixtures.busyChecks Fixtures.document Fixtures.options
      serviceName = Normal ps
    ∧ checkDependencyServices Fixtures.busyChecks Fixtures.document
        Fixtures.options serviceName = Normal ds
    ∧ checkNetworkConflicts Fixtures.busyChecks Fixtures.document
        Fixtures.options serviceName = Normal n
    ∧ VArr [Fixtures.issue "port" "1883 is taken" ["mosquitto"; "nodered"];
            Fixtures.issue "port" "9001 is taken" ["mosquitto"; "portainer"];
            Fixtures.issue "dependency" "nodered is required" ["nodered"];
            Fixtures.issue "network" "host networking is exclusive" ["mosquitto"]]
      = VArr (ps ++ ds ++ contribution)%list
    ∧ (length contribution ≤ 1)%nat
    ∧ (truthy n = true → contribution = [n])
    ∧ (truthy n = false → contribution = []).
Proof.
  apply (network_check_adds_at_most_one Fixtures.busyChecks Fixtures.node
           Fixtures.document Fixtures.options VUndef).
  vm_compute. reflexivity.
Defined.

(** C9: the array issues resolves with holds the port findings first, at
    their own positions, then the dependency findings, then, last and only
    when it is truthy, what the network checker returned. *)
Theorem issues_order {D O : Type} (checks : commonBuildChecks D O)
    (node : runtime) (doc : D) (o : O) (tmp v : value) :
  issues checks node doc o tmp = Resolved v →
  ∃ ps ds n found,
    checkPortConflicts checks doc o serviceName = Normal ps
    ∧ checkDependencyServices checks doc o serviceName = Normal ds
    ∧ checkNetworkConflicts checks doc o serviceName = Normal n
    ∧ v = VArr found
    ∧ (∀ i x, ps !! i = Some x → found !! i = Some x)
    ∧ (∀ i x, ds !! i = Some x → found !! (length ps + i)%nat = Some x)
    ∧ (truthy n = true →
         found !! (length ps + length ds)%nat = Some n
         ∧ length found = (length ps + length ds + 1)%nat)
    ∧ (truthy n = false → length found = (length ps + length ds)%nat).
Proof.
  intros H. apply conclude_resolved, issuesBody_normal_inv in H
    as (ps & ds & n & Hp & Hd & Hn & ->).
  exists ps, ds, n, (ps ++ ds ++ (if truthy n then [n] else []))%list.
  repeat (split; [done|]). split; [|split; [|split]].
  - intros i x Hi. by apply lookup_app_l_Some.
  - intros i x Hi. rewrite lookup_app_r by lia.
    replace (length ps + i - length ps)%nat with i by lia.
    by apply lookup_app_l_Some.
  - intros ->. split.
    + rewrite lookup_app_r by lia.
      replace (length ps + length ds - length ps)%nat with (length ds) by lia.
      rewrite lookup_app_r by lia. by rewrite Nat.sub_diag.
    + rewrite !length_app. simpl. lia.
  - intros ->. rewrite !length_app. simpl. lia.
Qed.

Lemma issues_order_witness :
  ∃ ps ds n found,
    checkPortConflicts Fixtures.busyChecks Fixtures.document Fixtures.options
      serviceName = Normal ps
    ∧ checkDependencyServices Fixtures.busyChecks Fixtures.document
        Fixtures.options serviceName = Normal ds
    ∧ checkNetworkConflicts Fixtures.busyChecks Fixtures.document
        Fixtures.options serviceName = Normal n
    ∧ VArr [Fixtures.issue "port" "1883 is taken" ["mosquitto"; "nodered"];
            Fixtures.issue "port" "9001 is taken" ["mosquitto"; "portainer"];
            Fixtures.issue "dependency" "nodered is required" ["nodered"];
            Fixtures.issue "network" "host networking is exclusive" ["mosquitto"]]
      = VArr found
    ∧ (∀ i x, ps !! i = Some x → found !! i = Some x)
    ∧ (∀ i x, ds !! i = Some x → found !! (length ps + i)%nat = Some x)
    ∧ (truthy n = true →
         found !! (length ps + length ds)%nat = Some n
         ∧ length found = (length ps + length ds + 1)%nat)
    ∧ (truthy n = false → length found = (length ps + length ds)%nat).
Proof.
  apply (issues_order Fixtures.busyChecks Fixtures.node Fixtures.document
           Fixtures.options VUndef).
  vm_compute. reflexivity.
Defined.

(** ** What build adds *)

(** C5: a successful build that starts from three distinct empty arrays
    leaves exactly one Zip Entry, with zipName
    ['/services/mosquitto/mosquitto.conf'], in [zipList]; exactly one
    fragment in [prebuildScripts], whose code is the three [mkdir -p] lines
    for the data, pwfile and log directories; and exactly three fragments
    in [postbuildScripts]: the check that the config file exists, the check
    that the three directories exist and the [chown] of the volume, in that
    order.  Every fragment is tagged ['mosquitto'] and carries its comment,
    and its code is given line by line.  The entry's [fullPath] is what
    [path.join] returns for [__dirname], [settings.paths.serviceFiles] and
    ['mosquitto.conf']. *)
Theorem build_mosquitto_artifacts {D O : Type} (settings : value) (node : runtime)
    (o : O) (tmp : value) (z pre post : loc) (w w' : world D) (v : value) :
  z ≠ pre → z ≠ post → pre ≠ post →
  heap w !! z = Some (VArr []) →
  heap w !! pre = Some (VArr []) →
  heap w !! post = Some (VArr []) →
  build settings node o tmp z pre post w = (Resolved v, w') →
  ∃ s fullPath directories fileCheck directoryCheck permissions,
    serviceFilesPath settings = Some s
    ∧ fullPath = path_join node [__dirname node; s; "mosquitto.conf"]
    ∧ heap w' !! z
    = Some (VArr [VObj [("fullPath", VStr fullPath);
                        ("zipName", VStr "/services/mosquitto/mosquitto.conf")]])
    ∧ heap w' !! pre
      = Some (VArr [VObj [("serviceName", VStr "mosquitto");
                          ("comment", VStr "Create required service directory exists for first launch");
                          ("multilineComment", VNull);
                          ("code", VStr directories)]])
    ∧ lines directories
      = [""; "mkdir -p ./volumes/mosquitto/data";
         "mkdir -p ./volumes/mosquitto/pwfile";
         "mkdir -p ./volumes/mosquitto/log"; ""]
    ∧ heap w' !! post
      = Some (VArr [VObj [("serviceName", VStr "mosquitto");
                          ("comment", VStr "Ensure required service files exist for launch");
                          ("multilineComment", VNull);
                          ("code", VStr fileCheck)];
                    VObj [("serviceName", VStr "mosquitto");
                          ("comment", VStr "Ensure required service directory exists for launch");
                          ("multilineComment", VNull);
                          ("code", VStr directoryCheck)];
                    VObj [("serviceName", VStr "mosquitto");
                          ("comment", VStr "Setup correct permissions for volume");
                          ("multilineComment", VNull);
                          ("code", VStr permissions)]])
    ∧ lines fileCheck
      = [""; "if [[ ! -f ./services/mosquitto/mosquitto.conf ]]; then";
         "  echo " ++ quote ++ "Mosquitto config file is missing!" ++ quote;
         "  sleep 2"; "fi"; ""]
    ∧ lines directoryCheck
      = [""; "HAS_ERROR=" ++ quote ++ "false" ++ quote;
         "if [[ ! -d ./volumes/mosquitto/data ]]; then";
         "  echo " ++ quote ++ "Mosquitto data directory is missing!" ++ quote;
         "  HAS_ERROR=" ++ quote ++ "true" ++ quote; "fi"; "";
         "if [[ ! -d ./volumes/mosquitto/pwfile ]]; then";
         "  echo " ++ quote ++ "Mosquitto pwfile directory is missing!" ++ quote;
         "  HAS_ERROR=" ++ quote ++ "true" ++ quote; "fi"; "";
         "if [[ ! -d ./volumes/mosquitto/log ]]; then";
         "  echo " ++ quote ++ "Mosquitto log directory is missing!" ++ quote;
         "  HAS_ERROR=" ++ quote ++ "true" ++ quote; "fi"; "";
         "if [[ " ++ quote ++ "$HAS_ERROR" ++ quote ++ " == " ++ quote ++ "true ]]; then";
         "  echo " ++ quote ++ "Errors were detected when setting up Mosquitto" ++ quote;
         "  sleep 1"; "fi"; ""]
    ∧ lines permissions
      = [""; "echo " ++ quote ++ "Updating mosquitto permissions:" ++ quote;
         "echo " ++ quote ++ "  chown -R 1883:1883 ./volumes/mosquitto/" ++ quote;
         "sudo chown -R 1883:1883 ./volumes/mosquitto/"; "    "].
Proof.
  intros Hzp Hzq Hpq Hz Hpre Hpost H. apply settle_resolved in H.
  destruct (serviceFilesPath settings) as [s|] eqn:Hs; cycle 1.
  { destruct (buildBody_without_path node settings o tmp z pre post w Hs)
      as (err & Herr).
    by rewrite Herr in H. }
  rewrite (buildBody_with_path node settings o tmp z pre post w s Hs) in H.
  revert H. unfold pushArtifacts, mbind, M_bind, mret, M_ret.
  rewrite (push_array node z _ w [] Hz). cbn [heap outputTemplateJson].
  rewrite (push_array node post _ _ [])
    by (cbn; rewrite lookup_insert_ne by congruence; done).
  cbn [heap outputTemplateJson].
  rewrite (push_array node pre _ _ [])
    by (cbn; rewrite !lookup_insert_ne by congruence; done).
  cbn [heap outputTemplateJson].
  rewrite (push_array node post _ _ [fragment "Ensure required service files exist for launch" checkServiceFilesCopied])
    by (cbn; rewrite lookup_insert_ne by congruence; by rewrite lookup_insert_eq).
  cbn [heap outputTemplateJson].
  rewrite (push_array node post _ _
             [fragment "Ensure required service files exist for launch" checkServiceFilesCopied;
              fragment "Ensure required service directory exists for launch" checkVolumesDirectory])
    by (cbn; by rewrite lookup_insert_eq).
  cbn [heap outputTemplateJson].
  intros [= <- <-]. cbn [heap].
  exists s, (path_join node [__dirname node; s; "mosquitto.conf"]),
    createVolumesDirectory, checkServiceFilesCopied,
    checkVolumesDirectory, (setupVolumePermissions (VBool true)).
  split; [done|]. split; [done|].
  split; [|split; [|split; [|split; [|split; [|split]]]]].
  - rewrite !lookup_insert_ne by congruence. by rewrite lookup_insert_eq.
  - rewrite !lookup_insert_ne by congruence. by rewrite lookup_insert_eq.
  - vm_compute. reflexivity.
  - by rewrite lookup_insert_eq.
  - vm_compute. reflexivity.
  - vm_compute. reflexivity.
  - vm_compute. reflexivity.
Qed.

Lemma build_mosquitto_artifacts_witness :
  let after := (build Fixtures.settings Fixtures.node Fixtures.options VUndef
                  0%nat 1%nat 2%nat Fixtures.freshWorld).2 in
  ∃ s fullPath directories fileCheck directoryCheck permissions,
    serviceFilesPath Fixtures.settings = Some s
    ∧ fullPath = path_join Fixtures.node [__dirname Fixtures.node; s; "mosquitto.conf"]
    ∧ heap after !! 0%nat
    = Some (VArr [VObj [("fullPath", VStr fullPath);
                        ("zipName", VStr "/services/mosquitto/mosquitto.conf")]])
    ∧ heap after !! 1%nat
      = Some (VArr [VObj [("serviceName", VStr "mosquitto");
                          ("comment", VStr "Create required service directory exists for first launch");
                          ("multilineComment", VNull);
                          ("code", VStr directories)]])
    ∧ lines directories
      = [""; "mkdir -p ./volumes/mosquitto/data";
         "mkdir -p ./volumes/mosquitto/pwfile";
         "mkdir -p ./volumes/mosquitto/log"; ""]
    ∧ heap after !! 2%nat
      = Some (VArr [VObj [("serviceName", VStr "mosquitto");
                          ("comment", VStr "Ensure required service files exist for launch");
                          ("multilineComment", VNull);
                          ("code", VStr fileCheck)];
                    VObj [("serviceName", VStr "mosquitto");
                          ("comment", VStr "Ensure required service directory exists for launch");
                          ("multilineComment", VNull);
                          ("code", VStr directoryCheck)];
                    VObj [("serviceName", VStr "mosquitto");
                          ("comment", VStr "Setup correct permissions for volume");
                          ("multilineComment", VNull);
                          ("code", VStr permissions)]])
    ∧ lines fileCheck
      = [""; "if [[ ! -f ./services/mosquitto/mosquitto.conf ]]; then";
         "  echo " ++ quote ++ "Mosquitto config file is missing!" ++ quote;
         "  sleep 2"; "fi"; ""]
    ∧ lines directoryCheck
      = [""; "HAS_ERROR=" ++ quote ++ "false" ++ quote;
         "if [[ ! -d ./volumes/mosquitto/data ]]; then";
         "  echo " ++ quote ++ "Mosquitto data directory is missing!" ++ quote;
         "  HAS_ERROR=" ++ quote ++ "true" ++ quote; "fi"; "";
         "if [[ ! -d ./volumes/mosquitto/pwfile ]]; then";
         "  echo " ++ quote ++ "Mosquitto pwfile directory is missing!" ++ quote;
         "  HAS_ERROR=" ++ quote ++ "true" ++ quote; "fi"; "";
         "if [[ ! -d ./volumes/mosquitto/log ]]; then";
         "  echo " ++ quote ++ "Mosquitto log directory is missing!" ++ quote;
         "  HAS_ERROR=" ++ quote ++ "true" ++ quote; "fi"; "";
         "if [[ " ++ quote ++ "$HAS_ERROR" ++ quote ++ " == " ++ quote ++ "true ]]; then";
         "  echo " ++ quote ++ "Errors were detected when setting up Mosquitto" ++ quote;
         "  sleep 1"; "fi"; ""]
    ∧ lines permissions
      = [""; "echo " ++ quote ++ "Updating mosquitto permissions:" ++ quote;
         "echo " ++ quote ++ "  chown -R 1883:1883 ./volumes/mosquitto/" ++ quote;
         "sudo chown -R 1883:1883 ./volumes/mosquitto/"; "    "].
Proof.
  apply (build_mosquitto_artifacts Fixtures.settings Fixtures.node
           Fixtures.options VUndef 0%nat 1%nat 2%nat Fixtures.freshWorld _
           (VObj [("type", VStr "service")]));
    [lia | lia | lia | vm_compute; reflexivity ..].
Defined.

(** The same call with one array passed for both script lists: the four
    fragments land in that one array, in the order they are pushed. *)
Lemma build_shared_script_list :
  heap (build Fixtures.settings Fixtures.node Fixtures.options VUndef
          0%nat 1%nat 1%nat Fixtures.sharedWorld).2 !! 1%nat
  = Some (VArr [fragment "Ensure required service files exist for launch"
                         checkServiceFilesCopied;
                fragment "Create required service directory exists for first launch"
                         createVolumesDirectory;
                fragment "Ensure required service directory exists for launch"
                         checkVolumesDirectory;
                fragment "Setup correct permissions for volume"
                         (setupVolumePermissions (VBool true))]).
Proof. vm_compute. reflexivity. Qed.

(** C7: a successful build leaves the working document as it was; in the
    store it touches nothing but its three list arguments, and every array
    keeps what it held and only grows at its end. *)
Theorem build_leaves_document {D O : Type} (settings : value) (node : runtime)
    (o : O) (tmp : value) (z pre post : loc) (w w' : world D) (v : value) :
  build settings node o tmp z pre post w = (Resolved v, w') →
  outputTemplateJson w' = outputTemplateJson w
  ∧ (∀ l, l ∉ [z; pre; post] → heap w' !! l = heap w !! l)
  ∧ (∀ l xs, heap w !! l = Some (VArr xs) →
             ∃ ys, heap w' !! l = Some (VArr (xs ++ ys)%list)).
Proof.
  intros H. apply settle_resolved in H.
  exact (buildBody_appendsOnly _ _ _ _ _ _ _ _ _ _ H).
Qed.

Lemma build_leaves_document_witness :
  let after := (build Fixtures.settings Fixtures.node Fixtures.options VUndef
                  0%nat 1%nat 2%nat Fixtures.freshWorld).2 in
  outputTemplateJson after = Fixtures.document
  ∧ (∀ l, l ∉ [0%nat; 1%nat; 2%nat] →
          heap after !! l = heap Fixtures.freshWorld !! l)
  ∧ (∀ l xs, heap Fixtures.freshWorld !! l = Some (VArr xs) →
             ∃ ys, heap after !! l = Some (VArr (xs ++ ys)%list)).
Proof.
  apply (build_leaves_document Fixtures.settings Fixtures.node Fixtures.options
           VUndef 0%nat 1%nat 2%nat Fixtures.freshWorld _
           (VObj [("type", VStr "service")])).
  vm_compute. reflexivity.
Defined.

(** ** The error a rejection carries *)





(** ** compile is idempotent *)

Lemma alter_alter {A : Type} (f g : A → A) (k : string) (m : gmap string A) :
  alter f k (alter g k m) = alter (f ∘ g) k m.
Proof.
  apply map_eq. intros j. destruct (decide (k = j)) as [->|Hne].
  - rewrite !lookup_alter_eq. by destruct (m !! j).
  - by rewrite !lookup_alter_ne.
Qed.

(** C6, for the compile-merge helpers as the specification describes them:
    compiling a second time with the same options settles the same way and
    leaves the working document exactly as the first compile left it. *)
Theorem compile_idempotent (registry : string → option OptionDescriptor)
    (node : runtime) (o : BuildOptions) (doc : WorkingDocument) :
  compile (mergeHelpers registry) node o
    (compile (mergeHelpers registry) node o doc).2
  = compile (mergeHelpers registry) node o doc.
Proof.
  rewrite !compile_mergeHelpers. cbn [snd]. f_equal.
  destruct (registry serviceName) as [d|] eqn:Hd;
    [|by rewrite !applyMerge_skip by auto].
  destruct (o !! serviceName) as [so|] eqn:Hso;
    [|by rewrite !applyMerge_skip by auto].
  rewrite !(applyMerge_alter registry _ _ o serviceName d so Hd Hso).
  rewrite !alter_alter. apply alter_ext. intros b _.
  apply (merges_twice d so b).
Qed.

(** One compile on a concrete document: the declared remap 1883 → 1884 is
    written, the remap of the undeclared port 9001 is dropped, logging is
    switched on and the service joins [iotstack_nw]. *)
Lemma compile_example :
  (compile Fixtures.logic Fixtures.node Fixtures.options Fixtures.document).2
    !! "mosquitto"
  = Some {| ports := {[ 1883 := 1884 ]};
            environment := [];
            blockVolumes := ["./volumes/mosquitto/data:/mosquitto/data"];
            network_mode := None;
            loggingEnabled := true;
            blockNetworks := {[ "iotstack_nw" ]} |}.
Proof. vm_compute. reflexivity. Qed.

(** ** The display metadata of the catalog *)

(** C8, as the code has it: [getMeta] of every template returns a record
    with the fields [serviceName], [displayName] and [serviceTypeTags], in
    that order; [influxdb] alone adds [iconUri]. *)
Theorem getMeta_fields (s : service) :
  fieldNames (getMeta s)
  = (["serviceName"; "displayName"; "serviceTypeTags"]
     ++ match s with influxDb => ["iconUri"] | _ => [] end)%list.
Proof. by destruct s. Qed.

(** C8 as stated fails: no template has a [tags] or an [icon] field. *)
Lemma getMeta_fields_not_as_specified :
  ¬ (∀ s, hasField "displayName" (getMeta s) = true
          ∧ hasField "tags" (getMeta s) = true
          ∧ hasField "icon" (getMeta s) = true).
Proof. intros H. by destruct (H prometheus) as (_ & Htags & _). Qed.

(** * Further properties of the builder *)

Import Conditions.

(** ** build, from its inputs *)

Section BuildRuns.
Context {D O : Type}.
Variable node : runtime.

Lemma push_ok target v (w w' : world D) :
  push node target v w = (Normal tt, w') →
  holdsArray (heap w) target = true
  ∧ ∀ l, holdsArray (heap w') l = holdsArray (heap w) l.
Proof.
  unfold push, holdsArray.
  destruct (heap w !! target) as [[| | | | | |xs|]|] eqn:Hcell; try done.
  intros [= <-]. split; [done|]. intros l. simpl.
  destruct (decide (l = target)) as [->|Hne].
  - by rewrite lookup_insert_eq, Hcell.
  - by rewrite lookup_insert_ne.
Qed.

Lemma push_fails target v (w w' : world D) err :
  push node target v w = (Throw err, w') →
  holdsArray (heap w) target = false ∧ w' = w.
Proof.
  unfold push, holdsArray.
  destruct (heap w !! target) as [[| | | | | |xs|]|]; by intros [= <- <-].
Qed.

Lemma push_runs target v (w : world D) :
  holdsArray (heap w) target = true →
  ∃ w', push node target v w = (Normal tt, w').
Proof.
  unfold push, holdsArray.
  destruct (heap w !! target) as [[| | | | | |xs|]|]; try done. by eexists.
Qed.
End BuildRuns.

Section BuildOutcomes.
Context {D O : Type}.
Variable node : runtime.

Lemma push_missing target v (w : world D) :
  holdsArray (heap w) target = false →
  push node target v w = (Throw (TypeError node "push is not a function"), w).
Proof.
  unfold push, holdsArray.
  by destruct (heap w !! target) as [[| | | | | |xs|]|].
Qed.

Lemma pushArtifacts_resolves fullPath z pre post (w : world D) :
  holdsArray (heap w) z = true →
  holdsArray (heap w) pre = true →
  holdsArray (heap w) post = true →
  ∃ w', pushArtifacts node fullPath z pre post w
        = (Normal (VObj [("type", VStr "service")]), w').
Proof.
  intros Hz Hpre Hpost. unfold pushArtifacts, mbind, M_bind, mret, M_ret.
  destruct (push_runs node z (zipEntry fullPath) w Hz) as (w1 & E1).
  rewrite E1. apply push_ok in E1 as (_ & K1).
  destruct (push_runs node post
              (fragment "Ensure required service files exist for launch"
                        checkServiceFilesCopied) w1) as (w2 & E2);
    [by rewrite K1|].
  rewrite E2. apply push_ok in E2 as (_ & K2).
  destruct (push_runs node pre
              (fragment "Create required service directory exists for first launch"
                        createVolumesDirectory) w2) as (w3 & E3);
    [by rewrite K2, K1|].
  rewrite E3. apply push_ok in E3 as (_ & K3).
  destruct (push_runs node post
              (fragment "Ensure required service directory exists for launch"
                        checkVolumesDirectory) w3) as (w4 & E4);
    [by rewrite K3, K2, K1|].
  rewrite E4. apply push_ok in E4 as (_ & K4).
  destruct (push_runs node post
              (fragment "Setup correct permissions for volume"
                        (setupVolumePermissions (VBool true))) w4) as (w5 & E5);
    [by rewrite K4, K3, K2, K1|].
  rewrite E5. by exists w5.
Qed.

Lemma pushArtifacts_resolved_inv fullPath z pre post (w w' : world D) v :
  pushArtifacts node fullPath z pre post w = (Normal v, w') →
  holdsArray (heap w) z = true
  ∧ holdsArray (heap w) pre = true
  ∧ holdsArray (heap w) post = true.
Proof.
  unfold pushArtifacts, mbind, M_bind, mret, M_ret.
  destruct (push node z _ w) as [[[]|e] w1] eqn:E1; [|done].
  apply push_ok in E1 as (Hz & K1).
  destruct (push node post _ w1) as [[[]|e] w2] eqn:E2; [|done].
  apply push_ok in E2 as (Hpost & K2).
  destruct (push node pre _ w2) as [[[]|e] w3] eqn:E3; [|done].
  apply push_ok in E3 as (Hpre & K3).
  intros _. rewrite K2, K1 in Hpre. rewrite K1 in Hpost. done.
Qed.

(** build resolves exactly when [settings.paths.serviceFiles] is a string
    and each of the three list arguments is an array; the lists need not be
    distinct. *)
Theorem build_resolves_iff settings (o : O) tmp z pre post (w : world D) :
  (∃ v w', build settings node o tmp z pre post w = (Resolved v, w'))
  ↔ is_Some (serviceFilesPath settings)
    ∧ holdsArray (heap w) z = true
    ∧ holdsArray (heap w) pre = true
    ∧ holdsArray (heap w) post = true.
Proof.
  split.
  - intros (v & w' & H). apply settle_resolved in H.
    destruct (serviceFilesPath settings) as [s|] eqn:Hs.
    + rewrite (buildBody_with_path node _ _ _ _ _ _ _ s Hs) in H.
      split; [by eexists|]. by eapply pushArtifacts_resolved_inv.
    + destruct (buildBody_without_path node settings o tmp z pre post w Hs)
        as (err & Herr). congruence.
  - intros ([s Hs] & Hz & Hpre & Hpost).
    destruct (pushArtifacts_resolves
                (path_join node [__dirname node; s; "mosquitto.conf"])
                z pre post w Hz Hpre Hpost) as (w' & Hrun).
    exists (VObj [("type", VStr "service")]), w'.
    unfold build, settle.
    by rewrite (buildBody_with_path node _ _ _ _ _ _ _ s Hs), Hrun.
Qed.

(** Without a string at [settings.paths.serviceFiles], build rejects before
    it pushes anything: document and store are exactly as before. *)
Theorem build_without_path_touches_nothing settings (o : O) tmp z pre post
    (w : world D) :
  serviceFilesPath settings = None →
  ∃ r, build settings node o tmp z pre post w = (Rejected r, w).
Proof.
  intros Hs.
  destruct (buildBody_without_path node settings o tmp z pre post w Hs)
    as (err & Herr).
  destruct (rejectUnhandled_rejects node "build" err) as (r & Hr).
  exists r. unfold build, settle. rewrite Herr. cbn [conclude]. by rewrite Hr.
Qed.

(** A build that rejects has still only appended: the working document is
    the one it was, no cell but the three lists changed, and no array lost
    or reordered what it held. *)
Theorem build_rejected_only_appended settings (o : O) tmp z pre post
    (w w' : world D) r :
  build settings node o tmp z pre post w = (Rejected r, w') →
  outputTemplateJson w' = outputTemplateJson w
  ∧ (∀ l, l ∉ [z; pre; post] → heap w' !! l = heap w !! l)
  ∧ (∀ l xs, heap w !! l = Some (VArr xs) →
             ∃ ys, heap w' !! l = Some (VArr (xs ++ ys)%list)).
Proof.
  intros H. apply settle_rejected in H as (err & Hbody & _).
  exact (buildBody_appendsOnly _ _ _ _ _ _ _ _ _ _ Hbody).
Qed.

(** build is not all-or-nothing: when [postbuildScripts] is no array, the
    call rejects after the Zip Entry went into [zipList], and that entry
    stays there; nothing else changed. *)
Theorem build_keeps_zip_entry_on_failure settings (o : O) tmp z pre post
    (w : world D) s xs :
  serviceFilesPath settings = Some s →
  z ≠ post →
  heap w !! z = Some (VArr xs) →
  holdsArray (heap w) post = false →
  ∃ r,
    build settings node o tmp z pre post w
    = (Rejected r,
       Build_world (outputTemplateJson w)
         (<[z := VArr (xs ++ [zipEntry (path_join node
                                 [__dirname node; s; "mosquitto.conf"])])%list]>
            (heap w))).
Proof.
  intros Hs Hne Hz Hpost.
  destruct (rejectUnhandled_rejects node "build"
              (TypeError node "push is not a function")) as (r & Hr).
  exists r. unfold build, settle.
  rewrite (buildBody_with_path node _ _ _ _ _ _ _ s Hs).
  unfold pushArtifacts, mbind, M_bind, mret, M_ret.
  rewrite (push_array node z _ w xs Hz).
  rewrite push_missing; [cbn [conclude]; by rewrite Hr|].
  unfold holdsArray in *. cbn [heap]. by rewrite lookup_insert_ne.
Qed.
End BuildOutcomes.

Section BuildAppends.
Context {D O : Type}.
Variable node : runtime.

Lemma pushArtifacts_appends fullPath z pre post (w : world D) xs ys zs :
  z ≠ pre → z ≠ post → pre ≠ post →
  heap w !! z = Some (VArr xs) →
  heap w !! pre = Some (VArr ys) →
  heap w !! post = Some (VArr zs) →
  ∃ w',
    pushArtifacts node fullPath z pre post w
    = (Normal (VObj [("type", VStr "service")]), w')
    ∧ outputTemplateJson w' = outputTemplateJson w
    ∧ heap w' !! z = Some (VArr (xs ++ [zipEntry fullPath])%list)
    ∧ heap w' !! pre = Some (VArr (ys ++ [prebuildFragment])%list)
    ∧ heap w' !! post = Some (VArr (zs ++ postbuildFragments)%list)
    ∧ (∀ l, l ≠ z → l ≠ pre → l ≠ post → heap w' !! l = heap w !! l).
Proof.
  intros Hzp Hzq Hpq Hz Hpre Hpost. eexists.
  unfold pushArtifacts, mbind, M_bind, mret, M_ret.
  rewrite (push_array node z _ w xs Hz). cbn [heap outputTemplateJson].
  rewrite (push_array node post _ _ zs)
    by (cbn; rewrite lookup_insert_ne by congruence; done).
  cbn [heap outputTemplateJson].
  rewrite (push_array node pre _ _ ys)
    by (cbn; rewrite !lookup_insert_ne by congruence; done).
  cbn [heap outputTemplateJson].
  rewrite (push_array node post _ _ (zs ++ [_])%list)
    by (cbn; rewrite lookup_insert_ne by congruence; by rewrite lookup_insert_eq).
  cbn [heap outputTemplateJson].
  rewrite (push_array node post _ _ ((zs ++ [_]) ++ [_])%list)
    by (cbn; by rewrite lookup_insert_eq).
  cbn [heap outputTemplateJson].
  split; [reflexivity|]. cbn [heap outputTemplateJson].
  split; [reflexivity|]. split; [|split; [|split]].
  - rewrite !lookup_insert_ne by congruence. by rewrite lookup_insert_eq.
  - rewrite !lookup_insert_ne by congruence. by rewrite lookup_insert_eq.
  - rewrite lookup_insert_eq. unfold postbuildFragments.
    by rewrite <- !(assoc_L (++)).
  - intros l Hlz Hlp Hlq. by rewrite !lookup_insert_ne by congruence.
Qed.

(** With three distinct arrays that already hold entries, build resolves
    and puts its artifacts after them: the Zip Entry for the joined path at
    the end of [zipList], the directory fragment at the end of
    [prebuildScripts], the three post-build fragments, in order, at the end
    of [postbuildScripts].  What the lists held stays in place, and nothing
    else in the store or the document changes. *)
Theorem build_appends_after_existing settings (o : O) tmp z pre post
    (w : world D) s xs ys zs :
  serviceFilesPath settings = Some s →
  z ≠ pre → z ≠ post → pre ≠ post →
  heap w !! z = Some (VArr xs) →
  heap w !! pre = Some (VArr ys) →
  heap w !! post = Some (VArr zs) →
  ∃ w',
    build settings node o tmp z pre post w
    = (Resolved (VObj [("type", VStr "service")]), w')
    ∧ outputTemplateJson w' = outputTemplateJson w
    ∧ heap w' !! z
      = Some (VArr (xs ++ [zipEntry (path_join node
                              [__dirname node; s; "mosquitto.conf"])])%list)
    ∧ heap w' !! pre = Some (VArr (ys ++ [prebuildFragment])%list)
    ∧ heap w' !! post = Some (VArr (zs ++ postbuildFragments)%list)
    ∧ (∀ l, l ≠ z → l ≠ pre → l ≠ post → heap w' !! l = heap w !! l).
Proof.
  intros Hs Hzp Hzq Hpq Hz Hpre Hpost.
  destruct (pushArtifacts_appends
              (path_join node [__dirname node; s; "mosquitto.conf"])
              z pre post w xs ys zs Hzp Hzq Hpq Hz Hpre Hpost)
    as (w' & Hrun & Hrest).
  exists w'. split; [|exact Hrest].
  unfold build, settle.
  by rewrite (buildBody_with_path node _ _ _ _ _ _ _ s Hs), Hrun.
Qed.

(** build does not look for what is already there: a second call on the
    same lists appends the same artifacts once more. *)
Theorem build_twice_appends_twice settings (o : O) tmp z pre post
    (w : world D) s xs ys zs :
  serviceFilesPath settings = Some s →
  z ≠ pre → z ≠ post → pre ≠ post →
  heap w !! z = Some (VArr xs) →
  heap w !! pre = Some (VArr ys) →
  heap w !! post = Some (VArr zs) →
  ∃ w1 w2 entry,
    build settings node o tmp z pre post w
    = (Resolved (VObj [("type", VStr "service")]), w1)
    ∧ build settings node o tmp z pre post w1
      = (Resolved (VObj [("type", VStr "service")]), w2)
    ∧ heap w2 !! z = Some (VArr (xs ++ [entry; entry])%list)
    ∧ heap w2 !! pre = Some (VArr (ys ++ [prebuildFragment; prebuildFragment])%list)
    ∧ heap w2 !! post
      = Some (VArr (zs ++ postbuildFragments ++ postbuildFragments)%list).
Proof.
  intros Hs Hzp Hzq Hpq Hz Hpre Hpost.
  set (fullPath := path_join node [__dirname node; s; "mosquitto.conf"]).
  destruct (pushArtifacts_appends fullPath z pre post w xs ys zs
              Hzp Hzq Hpq Hz Hpre Hpost)
    as (w1 & Hrun1 & _ & Hz1 & Hpre1 & Hpost1 & _).
  destruct (pushArtifacts_appends fullPath z pre post w1 _ _ _
              Hzp Hzq Hpq Hz1 Hpre1 Hpost1)
    as (w2 & Hrun2 & _ & Hz2 & Hpre2 & Hpost2 & _).
  exists w1, w2, (zipEntry fullPath).
  unfold build, settle.
  rewrite !(buildBody_with_path node _ _ _ _ _ _ _ s Hs).
  fold fullPath. rewrite Hrun1, Hrun2.
  split; [done|]. split; [done|].
  rewrite Hz2, Hpre2, Hpost2. by rewrite <- !(assoc_L (++)).
Qed.
End BuildAppends.

(** ** issues, from what the checkers do *)

Lemma truthy_false_iff n : truthy n = false ↔ n ∈ falsyValues.
Proof.
  unfold falsyValues. rewrite !elem_of_cons, elem_of_nil. split.
  - destruct n as [| |[]|[q| | | |]|z|s| |]; simpl; try done; intros H.
    + by left.
    + right. by left.
    + right. right. by left.
    + apply negb_false_iff, bool_decide_eq_true in H as ->.
      right. right. right. by left.
    + right. right. right. right. by left.
    + right. right. right. right. right. by left.
    + apply negb_false_iff, Z.eqb_eq in H as ->.
      right. right. right. right. right. right. by left.
    + apply negb_false_iff, String.eqb_eq in H as ->.
      right. right. right. right. right. right. right. by left.
  - intros [->|[->|[->|[->|[->|[->|[->|[->|[]]]]]]]]]; done.
Qed.

Section IssuesRuns.
Context {D O : Type}.
Variable checks : commonBuildChecks D O.
Variable node : runtime.

(** The checkers run in the order port, dependency, network, and the first
    one that throws decides the rejection: when the snapshot of its error
    can be taken, issues rejects with [{ component, message, error }]
    holding that snapshot, whatever the checkers after it would have done. *)
Theorem issues_reports_first_fault (doc : D) (o : O) tmp err names snapshot :
  checkPortConflicts checks doc o serviceName = Throw err
  ∨ (∃ ps, checkPortConflicts checks doc o serviceName = Normal ps
           ∧ checkDependencyServices checks doc o serviceName = Throw err)
  ∨ (∃ ps ds, checkPortConflicts checks doc o serviceName = Normal ps
              ∧ checkDependencyServices checks doc o serviceName = Normal ds
              ∧ checkNetworkConflicts checks doc o serviceName = Throw err) →
  Object_getOwnPropertyNames node err = Normal names →
  JSON_stringify node err names = Normal (Some snapshot) →
  issues checks node doc o tmp
  = Rejected (Plain (VObj [
      ("component", VStr "ServiceBuilder::issues() - 'mosquitto'");
      ("message", VStr "Unhandled error occured");
      ("error", ofJson snapshot)])).
Proof.
  intros Hfault Hnames Htext.
  assert (Hbody : issuesBody checks doc o = Throw err).
  { unfold issuesBody, mbind, completion_bind.
    destruct Hfault as [-> | [(ps & -> & ->) | (ps & ds & -> & -> & ->)]]; done. }
  unfold issues. rewrite Hbody. cbn [conclude].
  by rewrite (rejectUnhandled_returns node _ err names snapshot Hnames Htext).
Qed.

(** issues resolves with the empty array exactly when the port and the
    dependency checker return nothing and the network checker returns a
    falsy value: undefined, null, false, [0], [-0], NaN, [0n] or the empty
    string. *)
Theorem issues_empty_iff (doc : D) (o : O) tmp :
  issues checks node doc o tmp = Resolved (VArr [])
  ↔ checkPortConflicts checks doc o serviceName = Normal []
    ∧ checkDependencyServices checks doc o serviceName = Normal []
    ∧ ∃ n, checkNetworkConflicts checks doc o serviceName = Normal n
           ∧ n ∈ [VUndef; VNull; VBool false; VNum (Finite 0%Qc); VNum NegZero;
                  VNum NaN; VBigInt 0%Z; VStr EmptyString].
Proof.
  change [VUndef; VNull; VBool false; VNum (Finite 0%Qc); VNum NegZero;
          VNum NaN; VBigInt 0%Z; VStr EmptyString] with falsyValues.
  split.
  - intros H. apply conclude_resolved, issuesBody_normal_inv in H
      as (ps & ds & n & Hp & Hd & Hn & Heq).
    injection Heq as Heq. symmetry in Heq.
    apply app_eq_nil in Heq as (-> & Heq). apply app_eq_nil in Heq as (-> & Heq).
    split; [done|]. split; [done|]. exists n. split; [done|].
    apply truthy_false_iff. by destruct (truthy n).
  - intros (Hp & Hd & n & Hn & Hfalsy). apply truthy_false_iff in Hfalsy.
    unfold issues. rewrite (issuesBody_normal checks doc o [] [] n Hp Hd Hn).
    by rewrite Hfalsy.
Qed.
End IssuesRuns.

(** ** compile, from what the helpers do *)

Section CompileRuns.
Context {D O : Type}.
Variable logic : commonCompileLogic D O.
Variable node : runtime.

(** A compile that rejects is not rolled back: the document it leaves is
    the one the failing helper left, with the changes of the helpers that ran
    before it (ports, then logging, then network mode, then networks). *)
Theorem compile_rejected_keeps_earlier_changes (o : O) (d d' : D) r :
  compile logic node o d = (Rejected r, d') →
  ∃ err,
    setModifiedPorts logic o serviceName d = (Throw err, d')
    ∨ (∃ v1 d1,
         setModifiedPorts logic o serviceName d = (Normal v1, d1)
         ∧ setLoggingState logic o serviceName d1 = (Throw err, d'))
    ∨ (∃ v1 d1 v2 d2,
         setModifiedPorts logic o serviceName d = (Normal v1, d1)
         ∧ setLoggingState logic o serviceName d1 = (Normal v2, d2)
         ∧ setNetworkMode logic o serviceName d2 = (Throw err, d'))
    ∨ (∃ v1 d1 v2 d2 v3 d3,
         setModifiedPorts logic o serviceName d = (Normal v1, d1)
         ∧ setLoggingState logic o serviceName d1 = (Normal v2, d2)
         ∧ setNetworkMode logic o serviceName d2 = (Normal v3, d3)
         ∧ setNetworks logic o serviceName d3 = (Throw err, d')).
Proof.
  intros H. apply settle_rejected in H as (err & Hbody & _).
  exists err. revert Hbody. unfold compileBody, mbind, M_bind, mret, M_ret.
  destruct (setModifiedPorts logic o serviceName d) as [[v1|e1] d1] eqn:E1;
    [|intros [= -> ->]; by left].
  destruct (setLoggingState logic o serviceName d1) as [[v2|e2] d2] eqn:E2;
    [|intros [= -> ->]; right; left; by exists v1, d1].
  destruct (setNetworkMode logic o serviceName d2) as [[v3|e3] d3] eqn:E3;
    [|intros [= -> ->]; right; right; left; by exists v1, d1, v2, d2].
  destruct (setNetworks logic o serviceName d3) as [[v4|e4] d4] eqn:E4;
    [done|intros [= -> ->]; right; right; right; by exists v1, d1, v2, d2, v3, d3].
Qed.

(** A compile that resolves has run the four helpers once each, in the
    order ports, logging, network mode, networks, each on the document the
    one before left; the document after is the one [setNetworks] left. *)
Theorem compile_resolved_ran_all_helpers (o : O) (d d' : D) v :
  compile logic node o d = (Resolved v, d') →
  ∃ v1 d1 v2 d2 v3 d3 v4,
    setModifiedPorts logic o serviceName d = (Normal v1, d1)
    ∧ setLoggingState logic o serviceName d1 = (Normal v2, d2)
    ∧ setNetworkMode logic o serviceName d2 = (Normal v3, d3)
    ∧ setNetworks logic o serviceName d3 = (Normal v4, d').
Proof.
  intros H. apply settle_resolved in H. revert H.
  unfold compileBody, mbind, M_bind, mret, M_ret.
  destruct (setModifiedPorts logic o serviceName d) as [[v1|e1] d1] eqn:E1; [|done].
  destruct (setLoggingState logic o serviceName d1) as [[v2|e2] d2] eqn:E2; [|done].
  destruct (setNetworkMode logic o serviceName d2) as [[v3|e3] d3] eqn:E3; [|done].
  destruct (setNetworks logic o serviceName d3) as [[v4|e4] d4] eqn:E4; [|done].
  intros [= <- <-]. by exists v1, d1, v2, d2, v3, d3, v4.
Qed.

(** compile changes the document only through its helpers, called for
    ['mosquitto']: a relation between the document before and after that
    holds of no change, chains, and holds across every helper call for
    that service holds across compile, whether it resolves or rejects. *)
Theorem compile_keeps_what_helpers_keep (R : D → D → Prop) (o : O) (d d' : D) s :
  (∀ x, R x x) →
  (∀ x y z, R x y → R y z → R x z) →
  (∀ x c y, setModifiedPorts logic o serviceName x = (c, y) → R x y) →
  (∀ x c y, setLoggingState logic o serviceName x = (c, y) → R x y) →
  (∀ x c y, setNetworkMode logic o serviceName x = (c, y) → R x y) →
  (∀ x c y, setNetworks logic o serviceName x = (c, y) → R x y) →
  compile logic node o d = (s, d') →
  R d d'.
Proof.
  intros Hrefl Htrans H1 H2 H3 H4.
  unfold compile, settle, compileBody, mbind, M_bind, mret, M_ret.
  destruct (setModifiedPorts logic o serviceName d) as [[v1|e1] d1] eqn:E1;
    [|intros [= _ <-]; by eapply H1].
  apply H1 in E1.
  destruct (setLoggingState logic o serviceName d1) as [[v2|e2] d2] eqn:E2;
    [|intros [= _ <-]; apply H2 in E2; by eapply Htrans].
  apply H2 in E2. pose proof (Htrans _ _ _ E1 E2) as E12.
  destruct (setNetworkMode logic o serviceName d2) as [[v3|e3] d3] eqn:E3;
    [|intros [= _ <-]; apply H3 in E3; by eapply Htrans].
  apply H3 in E3. pose proof (Htrans _ _ _ E12 E3) as E123.
  destruct (setNetworks logic o serviceName d3) as [[v4|e4] d4] eqn:E4;
    intros [= _ <-]; apply H4 in E4; by eapply Htrans.
Qed.
End CompileRuns.

(** ** When the snapshot cannot be taken *)



(** ** The catalog *)

(** Each template reports one and the same service name from
    [getConfigOptions], [getHelp] and [getMeta], and no two templates share
    a name, so the name identifies the template. *)
Theorem catalog_names_identify (s s' : service) :
  Catalog.serviceName (getConfigOptions s) = name s
  ∧ getField "serviceName" (getHelp s) = Some (VStr (name s))
  ∧ getField "serviceName" (getMeta s) = Some (VStr (name s))
  ∧ (name s = name s' ↔ s = s').
Proof.
  repeat split; try by destruct s.
  - by destruct s, s'.
  - by intros ->.
Qed.

(** ** The shell fragments *)

(** Double quotes pair up in the file check, in the directory creation and
    in both variants of the permission fragment; the directory check holds
    an odd number of them: its last test opens a quote it never closes. *)
Theorem checkVolumesDirectory_leaves_a_quote_open (setUser1883 : value) :
  Nat.even (occurrences (Ascii.ascii_of_N 34) checkServiceFilesCopied) = true
  ∧ Nat.even (occurrences (Ascii.ascii_of_N 34) createVolumesDirectory) = true
  ∧ Nat.even (occurrences (Ascii.ascii_of_N 34)
                (setupVolumePermissions setUser1883)) = true
  ∧ Nat.even (occurrences (Ascii.ascii_of_N 34) checkVolumesDirectory) = false.
Proof.
  repeat split; try (vm_compute; reflexivity).
  unfold setupVolumePermissions. destruct (truthy setUser1883); vm_compute; reflexivity.
Qed.

(** ** The further properties at concrete inputs *)

Lemma build_resolves_iff_witness :
  ∃ v w', build Fixtures.settings Fixtures.node Fixtures.options VUndef
            0%nat 1%nat 2%nat Fixtures.freshWorld = (Resolved v, w').
Proof.
  apply (build_resolves_iff Fixtures.node Fixtures.settings Fixtures.options
           VUndef 0%nat 1%nat 2%nat Fixtures.freshWorld).
  split; [by exists "serviceFiles"|]. by vm_compute.
Defined.

Lemma build_without_path_touches_nothing_witness :
  ∃ r, build (VObj [("paths", VObj [])]) Fixtures.node Fixtures.options VUndef
         0%nat 1%nat 2%nat Fixtures.freshWorld = (Rejected r, Fixtures.freshWorld).
Proof.
  apply (build_without_path_touches_nothing Fixtures.node).
  reflexivity.
Defined.

Lemma build_rejected_only_appended_witness :
  ∃ w',
    outputTemplateJson w' = Fixtures.document
    ∧ (∀ l, l ∉ [0%nat; 1%nat; 2%nat] →
            heap w' !! l = heap Fixtures.brokenWorld !! l)
    ∧ (∀ l xs, heap Fixtures.brokenWorld !! l = Some (VArr xs) →
               ∃ ys, heap w' !! l = Some (VArr (xs ++ ys)%list)).
Proof.
  eexists.
  eapply (build_rejected_only_appended Fixtures.node Fixtures.settings
            Fixtures.options VUndef 0%nat 1%nat 2%nat Fixtures.brokenWorld).
  vm_compute. reflexivity.
Defined.

Lemma build_keeps_zip_entry_on_failure_witness :
  ∃ r,
    build Fixtures.settings Fixtures.node Fixtures.options VUndef
      0%nat 1%nat 2%nat Fixtures.brokenWorld
    = (Rejected r,
       Build_world Fixtures.document
         (<[0%nat := VArr [zipEntry
              "/IOTstack/.internal/templates/services/mosquitto/serviceFiles/mosquitto.conf"]]>
            (heap Fixtures.brokenWorld))).
Proof.
  apply (build_keeps_zip_entry_on_failure Fixtures.node Fixtures.settings
           Fixtures.options VUndef 0%nat 1%nat 2%nat Fixtures.brokenWorld
           "serviceFiles" []);
    [reflexivity | lia | vm_compute; reflexivity | vm_compute; reflexivity].
Defined.

Lemma build_appends_after_existing_witness :
  ∃ w',
    build Fixtures.settings Fixtures.node Fixtures.options VUndef
      0%nat 1%nat 2%nat Fixtures.usedWorld
    = (Resolved (VObj [("type", VStr "service")]), w')
    ∧ outputTemplateJson w' = Fixtures.document
    ∧ heap w' !! 0%nat
      = Some (VArr [VObj [("fullPath", VStr "/IOTstack/nodered/build.sh");
                          ("zipName", VStr "/services/nodered/build.sh")];
                    zipEntry
                      "/IOTstack/.internal/templates/services/mosquitto/serviceFiles/mosquitto.conf"])
    ∧ heap w' !! 1%nat = Some (VArr [VStr "pre: nodered"; prebuildFragment])
    ∧ heap w' !! 2%nat = Some (VArr (VStr "post: nodered" :: postbuildFragments))
    ∧ (∀ l, l ≠ 0%nat → l ≠ 1%nat → l ≠ 2%nat →
            heap w' !! l = heap Fixtures.usedWorld !! l).
Proof.
  apply (build_appends_after_existing Fixtures.node Fixtures.settings
           Fixtures.options VUndef 0%nat 1%nat 2%nat Fixtures.usedWorld
           "serviceFiles"
           [VObj [("fullPath", VStr "/IOTstack/nodered/build.sh");
                  ("zipName", VStr "/services/nodered/build.sh")]]
           [VStr "pre: nodered"] [VStr "post: nodered"]);
    [reflexivity | lia | lia | lia | vm_compute; reflexivity ..].
Defined.

Lemma build_twice_appends_twice_witness :
  ∃ w1 w2 entry,
    build Fixtures.settings Fixtures.node Fixtures.options VUndef
      0%nat 1%nat 2%nat Fixtures.freshWorld
    = (Resolved (VObj [("type", VStr "service")]), w1)
    ∧ build Fixtures.settings Fixtures.node Fixtures.options VUndef
        0%nat 1%nat 2%nat w1
      = (Resolved (VObj [("type", VStr "service")]), w2)
    ∧ heap w2 !! 0%nat = Some (VArr [entry; entry])
    ∧ heap w2 !! 1%nat = Some (VArr [prebuildFragment; prebuildFragment])
    ∧ heap w2 !! 2%nat = Some (VArr (postbuildFragments ++ postbuildFragments)%list).
Proof.
  apply (build_twice_appends_twice Fixtures.node Fixtures.settings
           Fixtures.options VUndef 0%nat 1%nat 2%nat Fixtures.freshWorld
           "serviceFiles" [] [] []);
    [reflexivity | lia | lia | lia | vm_compute; reflexivity ..].
Defined.

Lemma issues_reports_first_fault_witness :
  issues Fixtures.doubleFaultChecks Fixtures.node Fixtures.document
    Fixtures.options VUndef
  = Rejected (Plain (VObj [
      ("component", VStr "ServiceBuilder::issues() - 'mosquitto'");
      ("message", VStr "Unhandled error occured");
      ("error", ofJson (JObj [("stack", JStr "TypeError: ports is not iterable");
                              ("message", JStr "ports is not iterable")]))])).
Proof.
  apply (issues_reports_first_fault Fixtures.doubleFaultChecks Fixtures.node
           Fixtures.document Fixtures.options VUndef
           (Fixtures.raise "TypeError" "ports is not iterable")
           ["stack"; "message"]);
    [left; reflexivity | reflexivity | vm_compute; reflexivity].
Defined.

Lemma issues_empty_iff_witness :
  issues Fixtures.quietChecks Fixtures.node Fixtures.document Fixtures.options
    VUndef = Resolved (VArr []).
Proof.
  apply (issues_empty_iff Fixtures.quietChecks Fixtures.node Fixtures.document
           Fixtures.options VUndef).
  split; [reflexivity|]. split; [reflexivity|].
  exists VNull. split; [reflexivity|]. right. left.
Defined.

Lemma compile_rejected_keeps_earlier_changes_witness :
  ∃ r d' err,
    compile Fixtures.lateFaultLogic Fixtures.node Fixtures.options
      Fixtures.document = (Rejected r, d')
    ∧ d' !! "mosquitto" ≠ Fixtures.document !! "mosquitto"
    ∧ (setModifiedPorts Fixtures.lateFaultLogic Fixtures.options serviceName
         Fixtures.document = (Throw err, d')
       ∨ (∃ v1 d1,
            setModifiedPorts Fixtures.lateFaultLogic Fixtures.options
              serviceName Fixtures.document = (Normal v1, d1)
            ∧ setLoggingState Fixtures.lateFaultLogic Fixtures.options
                serviceName d1 = (Throw err, d'))
       ∨ (∃ v1 d1 v2 d2,
            setModifiedPorts Fixtures.lateFaultLogic Fixtures.options
              serviceName Fixtures.document = (Normal v1, d1)
            ∧ setLoggingState Fixtures.lateFaultLogic Fixtures.options
                serviceName d1 = (Normal v2, d2)
            ∧ setNetworkMode Fixtures.lateFaultLogic Fixtures.options
                serviceName d2 = (Throw err, d'))
       ∨ (∃ v1 d1 v2 d2 v3 d3,
            setModifiedPorts Fixtures.lateFaultLogic Fixtures.options
              serviceName Fixtures.document = (Normal v1, d1)
            ∧ setLoggingState Fixtures.lateFaultLogic Fixtures.options
                serviceName d1 = (Normal v2, d2)
            ∧ setNetworkMode Fixtures.lateFaultLogic Fixtures.options
                serviceName d2 = (Normal v3, d3)
            ∧ setNetworks Fixtures.lateFaultLogic Fixtures.options
                serviceName d3 = (Throw err, d'))).
Proof.
  assert (Hrun : compile Fixtures.lateFaultLogic Fixtures.node Fixtures.options
                   Fixtures.document
                 = ((compile Fixtures.lateFaultLogic Fixtures.node Fixtures.options
                      Fixtures.document).1,
                   (compile Fixtures.lateFaultLogic Fixtures.node Fixtures.options
                      Fixtures.document).2))
    by apply surjective_pairing.
  assert (Hrej : (compile Fixtures.lateFaultLogic Fixtures.node Fixtures.options
                    Fixtures.document).1
                 = Rejected (Plain (unhandled "compile"
                     (VObj [("stack", VStr "TypeError: network_mode is not a string");
                            ("message", VStr "network_mode is not a string")]))))
    by (vm_compute; reflexivity).
  rewrite Hrej in Hrun.
  destruct (compile_rejected_keeps_earlier_changes Fixtures.lateFaultLogic
              Fixtures.node _ _ _ _ Hrun) as (err & Hcases).
  eexists. eexists. exists err. split; [exact Hrun|]. split; [|exact Hcases].
  vm_compute. discriminate.
Defined.

Lemma compile_resolved_ran_all_helpers_witness :
  ∃ d' v1 d1 v2 d2 v3 d3 v4,
    setModifiedPorts Fixtures.logic Fixtures.options serviceName Fixtures.document
    = (Normal v1, d1)
    ∧ setLoggingState Fixtures.logic Fixtures.options serviceName d1 = (Normal v2, d2)
    ∧ setNetworkMode Fixtures.logic Fixtures.options serviceName d2 = (Normal v3, d3)
    ∧ setNetworks Fixtures.logic Fixtures.options serviceName d3 = (Normal v4, d').
Proof.
  eexists.
  eapply (compile_resolved_ran_all_helpers Fixtures.logic Fixtures.node
            Fixtures.options Fixtures.document).
  apply compile_mergeHelpers.
Defined.

Lemma compile_keeps_what_helpers_keep_witness :
  (compile Fixtures.idleLogic Fixtures.node Fixtures.options Fixtures.document).2
  = Fixtures.document.
Proof.
  symmetry.
  apply (compile_keeps_what_helpers_keep Fixtures.idleLogic Fixtures.node eq
           Fixtures.options Fixtures.document _
           (compile Fixtures.idleLogic Fixtures.node Fixtures.options
              Fixtures.document).1);
    [reflexivity
    | intros x y z -> ->; reflexivity
    | intros x c y [= _ <-]; reflexivity ..
    | apply surjective_pairing].
Defined.


Lemma catalog_names_identify_witness :
  Catalog.serviceName (getConfigOptions influxDb) = "influxdb"
  ∧ getField "serviceName" (getHelp influxDb) = Some (VStr "influxdb")
  ∧ getField "serviceName" (getMeta influxDb) = Some (VStr "influxdb")
  ∧ (name influxDb = name prometheus ↔ influxDb = prometheus).
Proof. exact (catalog_names_identify influxDb prometheus). Defined.
